(** * vc-invest: the company classifier of [main.py]

    A shallow embedding of [CompanyClassifier] and [main]: Python floats are
    IEEE-754 binary64 values ([spec_float] with 53 bits of precision),
    Python ints are [Z], exceptions are values of an error monad, and the
    effects of the program (standard output, the calls to the analysis
    provider, the key it is given and the file written) are threaded
    through an explicit [world]. *)

From Stdlib Require Import ZArith List String Ascii Bool Lia DecimalString.
From Stdlib Require Import SpecFloat.
Import ListNotations.

Local Open Scope string_scope.
Local Open Scope Z_scope.

(** ** Exceptions *)

Inductive exn : Type :=
| ZeroDivisionError
| OverflowError
| TypeError
| AttributeError
| ValueError (msg : string)
| KeyError (key : string)
| JSONDecodeError (msg : string)
| OtherException (cls msg : string)   (* any other subclass of Exception *)
| KeyboardInterrupt                   (* BaseException, not Exception *)
| SystemExit.                         (* BaseException, not Exception *)

(** [isinstance(e, Exception)]: what [except Exception] catches. *)
Definition is_Exception (e : exn) : bool :=
  match e with
  | KeyboardInterrupt | SystemExit => false
  | _ => true
  end.

(** [str(e)] *)
Definition exn_str (e : exn) : string :=
  match e with
  | ZeroDivisionError => "division by zero"
  | OverflowError => "int too large to convert to float"
  | TypeError => "unsupported operand type(s)"
  | AttributeError => "object has no attribute"
  | ValueError msg => msg
  | KeyError key => "'" ++ key ++ "'"
  | JSONDecodeError msg => msg
  | OtherException _ msg => msg
  | KeyboardInterrupt => ""
  | SystemExit => ""
  end.

Inductive result (A : Type) : Type :=
| Ok (a : A)
| Raise (e : exn).
Arguments Ok {A} a.
Arguments Raise {A} e.

Definition rbind {A B} (x : result A) (k : A -> result B) : result B :=
  match x with
  | Ok a => k a
  | Raise e => Raise e
  end.

Declare Scope result_scope.
Delimit Scope result_scope with result.
Notation "x <- c ;; k" := (rbind c (fun x => k))
  (at level 61, c at next level, right associativity) : result_scope.

(** [try: body  except: handler] with a bare [except], which catches
    every exception. *)
Definition try_except_all {A} (body : result A) (handler : result A) : result A :=
  match body with
  | Ok a => Ok a
  | Raise _ => handler
  end.

(** Python's short-circuit [a and b] on booleans whose evaluation may raise. *)
Definition py_and (a b : result bool) : result bool :=
  rbind a (fun x => if x then b else Ok false).

(** ** Floats: IEEE-754 binary64 *)

Module B64.
Definition prec : Z := 53.
Definition emax : Z := 1024.

Definition float : Type := spec_float.

(** [float(z)] for an int that fits; correctly rounded, infinite when
    the int is beyond the range of a double. *)
Definition of_Z (z : Z) : float := binary_normalize prec emax z 0 false.

Definition add : float -> float -> float := SFadd prec emax.
Definition mul : float -> float -> float := SFmul prec emax.
Definition div : float -> float -> float := SFdiv prec emax.
Definition ltb : float -> float -> bool := SFltb.
Definition leb : float -> float -> bool := SFleb.

Definition is_nan (x : float) : bool :=
  match x with S754_nan => true | _ => false end.
Definition is_zero (x : float) : bool :=
  match x with S754_zero _ => true | _ => false end.
Definition is_inf (x : float) : bool :=
  match x with S754_infinity _ => true | _ => false end.

(** The literal [0.5]. *)
Definition half : float := Eval cbv in binary_normalize prec emax 1 (-1) false.

(** [x / y] on floats: ZeroDivisionError on a zero divisor of either sign. *)
Definition truediv (x y : float) : result float :=
  if is_zero y then Raise ZeroDivisionError else Ok (div x y).

(** [float(z)] as Python does it: OverflowError beyond the double range. *)
Definition float_of_int (z : Z) : result float :=
  let f := of_Z z in
  if is_inf f then Raise OverflowError else Ok f.

(** [a / b] on ints: the correctly rounded quotient, ZeroDivisionError
    on [b = 0], OverflowError when the quotient is beyond the double range. *)
Definition int_truediv (a b : Z) : result float :=
  if b =? 0 then Raise ZeroDivisionError
  else
    let negate := xorb (a <? 0) (b <? 0) in
    if a =? 0 then Ok (S754_zero negate)
    else
      let '(q, e, l) := SFdiv_core_binary prec emax (Z.abs a) 0 (Z.abs b) 0 in
      let f := binary_round_aux prec emax negate q e l in
      if is_inf f then Raise OverflowError else Ok f.
End B64.

(** ** The arithmetic [has_stable_growth] runs on

    The function is written once over the operations it uses; [b64] below
    gives them their meaning on binary64, what the program runs on. *)

Record arith (F : Type) : Type := {
  of_int : Z -> F;                  (* an int literal used where a float is *)
  truediv : F -> F -> result F;     (* x / y *)
  mul : F -> F -> F;                (* x * y *)
  ltb : F -> F -> bool;             (* x < y *)
  leb : F -> F -> bool;             (* x <= y *)
  isna : F -> bool                  (* pd.isna(x) *)
}.
Arguments of_int {F} _ _.
Arguments truediv {F} _ _ _.
Arguments mul {F} _ _ _.
Arguments ltb {F} _ _ _.
Arguments leb {F} _ _ _.
Arguments isna {F} _ _.

Section GrowthStability.
Context {F : Type} (A : arith F).

(** [x > y] *)
Definition gtb (x y : F) : bool := ltb A y x.

(** The builtin [min]: keeps the first item and replaces it by a later
    one only when that one compares strictly smaller. *)
Definition py_min (l : list F) : result F :=
  match l with
  | [] => Raise (ValueError "min() arg is an empty sequence")
  | x :: l' => Ok (fold_left (fun m y => if ltb A y m then y else m) l' x)
  end.

(** The builtin [max]: replaces the kept item only by a strictly greater one. *)
Definition py_max (l : list F) : result F :=
  match l with
  | [] => Raise (ValueError "max() arg is an empty sequence")
  | x :: l' => Ok (fold_left (fun m y => if gtb y m then y else m) l' x)
  end.

(** [rates = [growth_2y/2, growth_1y, growth_6m*2]] *)
Definition annualized_rates (growth_2y growth_1y growth_6m : F) : result (list F) :=
  (r2 <- truediv A growth_2y (of_int A 2) ;;
   Ok [r2; growth_1y; mul A growth_6m (of_int A 2)])%result.

Definition has_stable_growth (growth_2y growth_1y growth_6m : F) : result bool :=
  if isna A growth_2y then
    Ok (gtb growth_1y growth_6m && gtb growth_6m (of_int A 0))
  else
    (rates <- annualized_rates growth_2y growth_1y growth_6m ;;
     lo <- py_min rates ;;
     if leb A lo (of_int A 0) then Ok false
     else
       hi <- py_max rates ;;
       lo' <- py_min rates ;;
       q <- truediv A hi lo' ;;
       Ok (ltb A q (of_int A 3)))%result.
End GrowthStability.

(** Binary64: the arithmetic of the running program. *)
Definition b64 : arith B64.float := {|
  of_int := B64.of_Z;
  truediv := B64.truediv;
  mul := B64.mul;
  ltb := B64.ltb;
  leb := B64.leb;
  isna := B64.is_nan
|}.

(** ** Strings *)

Definition nl : string := String (ascii_of_nat 10) "".
Definition apostrophe : ascii := ascii_of_nat 39.
Definition double_quote : ascii := ascii_of_nat 34.

(** [needle in hay] *)
Fixpoint str_contains (needle hay : string) : bool :=
  String.prefix needle hay ||
  match hay with
  | EmptyString => false
  | String _ hay' => str_contains needle hay'
  end.

(** [s.replace(old, new)] for one-character [old] and [new]. *)
Fixpoint str_replace_char (old new : ascii) (s : string) : string :=
  match s with
  | EmptyString => EmptyString
  | String c s' =>
      String (if Ascii.eqb c old then new else c) (str_replace_char old new s')
  end.

(** [sep.join(l)] *)
Definition str_join (sep : string) (l : list string) : string := String.concat sep l.

(** [str(z)] for an int *)
Definition str_of_int (z : Z) : string := NilZero.string_of_int (Z.to_int z).

(** ** Formatting a float with [:.1f]

    The decimal conversion is correctly rounded from the exact binary
    value of the double; an exact tie goes to the even digit. *)

(** [n / d] rounded to the nearest integer, ties to even ([0 <= n], [0 < d]). *)
Definition round_half_even (n d : Z) : Z :=
  let q := n / d in
  let r := n mod d in
  match 2 * r ?= d with
  | Lt => q
  | Gt => q + 1
  | Eq => if Z.even q then q else q + 1
  end.

(** The number of tenths printed for the magnitude [m * 2^e]. *)
Definition tenths (m : positive) (e : Z) : Z :=
  match e with
  | Zneg p => round_half_even (10 * Zpos m) (2 ^ Zpos p)
  | _ => 10 * Zpos m * 2 ^ e
  end.

Definition format_1f (x : B64.float) : string :=
  let sign (s : bool) := if s then "-" else "" in
  match x with
  | S754_nan => "nan"
  | S754_infinity s => sign s ++ "inf"
  | S754_zero s => sign s ++ "0.0"
  | S754_finite s m e =>
      let t := tenths m e in
      sign s ++ str_of_int (t / 10) ++ "." ++ str_of_int (t mod 10)
  end.

(** ** Python values, as [json.loads] returns them *)

#[local] Set Warnings "-register-all".
Inductive pyval : Type :=
| PyNone
| PyBool (b : bool)
| PyInt (z : Z)
| PyFloat (f : B64.float)
| PyStr (s : string)
| PyList (l : list pyval)
| PyDict (members : list (string * pyval)).
  (* [members]: the key/value pairs in the order they were inserted *)
#[local] Set Warnings "+register-all".

Section Dict.
Context {V : Type}.

(** [d[k] = v]: a key that is present keeps its position. *)
Fixpoint dict_set (d : list (string * V)) (k : string) (v : V) : list (string * V) :=
  match d with
  | [] => [(k, v)]
  | (k', v') :: d' =>
      if String.eqb k' k then (k', v) :: d' else (k', v') :: dict_set d' k v
  end.

(** The items of the dict built by inserting [members] in order. *)
Definition dict_items (members : list (string * V)) : list (string * V) :=
  fold_left (fun d kv => dict_set d (fst kv) (snd kv)) members [].

Fixpoint dict_lookup (d : list (string * V)) (k : string) : option V :=
  match d with
  | [] => None
  | (k', v) :: d' => if String.eqb k' k then Some v else dict_lookup d' k
  end.
End Dict.

(** [v.values()] *)
Definition py_values (v : pyval) : result (list pyval) :=
  match v with
  | PyDict members => Ok (map snd (dict_items members))
  | _ => Raise AttributeError
  end.

(** [v.get(k, default)] *)
Definition py_get (v : pyval) (k : string) (default : pyval) : result pyval :=
  match v with
  | PyDict members =>
      Ok (match dict_lookup (dict_items members) k with
          | Some x => x
          | None => default
          end)
  | _ => Raise AttributeError
  end.

(** The numeric reading of a value: [bool] is a subclass of [int]. *)
Definition as_number (v : pyval) : option (Z + B64.float) :=
  match v with
  | PyBool b => Some (inl (if b then 1 else 0))
  | PyInt z => Some (inl z)
  | PyFloat f => Some (inr f)
  | _ => None
  end.

(** [a + b] *)
Definition py_add (a b : pyval) : result pyval :=
  match as_number a, as_number b with
  | Some (inl x), Some (inl y) => Ok (PyInt (x + y))
  | Some (inl x), Some (inr g) =>
      (f <- B64.float_of_int x ;; Ok (PyFloat (B64.add f g)))%result
  | Some (inr f), Some (inl y) =>
      (g <- B64.float_of_int y ;; Ok (PyFloat (B64.add f g)))%result
  | Some (inr f), Some (inr g) => Ok (PyFloat (B64.add f g))
  | _, _ =>
      match a, b with
      | PyStr s, PyStr t => Ok (PyStr (s ++ t))
      | PyList l, PyList m => Ok (PyList (l ++ m))
      | _, _ => Raise TypeError
      end
  end.

(** [sum(l)]: starts from the int [0] and adds from the left.  (On float
    items CPython 3.12 and later also carries a compensation term for the
    rounding, which is left out here; int items are added exactly.) *)
Definition py_sum (l : list pyval) : result pyval :=
  fold_left (fun acc v => (a <- acc ;; py_add a v)%result) l (Ok (PyInt 0)).

(** [a / b]: always a float. *)
Definition py_truediv (a b : pyval) : result B64.float :=
  match as_number a, as_number b with
  | Some (inl x), Some (inl y) => B64.int_truediv x y
  | Some (inl x), Some (inr g) =>
      (f <- B64.float_of_int x ;; B64.truediv f g)%result
  | Some (inr f), Some (inl y) =>
      (g <- B64.float_of_int y ;; B64.truediv f g)%result
  | Some (inr f), Some (inr g) => B64.truediv f g
  | _, _ => Raise TypeError
  end.

(** ** Data model *)

(** The pydantic model [CompanyAnalysis]. *)
Record CompanyAnalysis : Type := {
  is_saas : bool;
  growth_potential : Z;
  risk_level : Z;
  key_strengths : list string;
  concerns : list string;
  target_market : string;
  competitive_advantage : string
}.

(** One row of [self.df], with the types the methods annotate. *)
Record Company : Type := {
  company_name : string;           (* 'Company Name' *)
  description : string;            (* 'Description' *)
  industry : string;               (* 'Industry' *)
  founded_year : Z;                (* 'Founded Year' *)
  total_employees : Z;             (* 'Total Employees' *)
  headquarters : string;           (* 'Headquarters' *)
  employee_locations : string;     (* 'Employee Locations' *)
  growth_2y : B64.float;           (* 'Employee Growth 2Y (%)' *)
  growth_1y : B64.float;           (* 'Employee Growth 1Y (%)' *)
  growth_6m : B64.float            (* 'Employee Growth 6M (%)' *)
}.

Record CompanyClassifier : Type := {
  df : list Company;
  current_year : Z
}.

(** A cell of the result frame, and a result row: the dict appended to
    [results], keys in insertion order. *)
Inductive cell : Type :=
| CStr (s : string)
| CInt (z : Z).

Definition row : Type := list (string * cell).

Definition cell_str (c : cell) : string :=
  match c with
  | CStr s => s
  | CInt z => str_of_int z
  end.

(** [r[k]] *)
Definition row_get (r : row) (k : string) : result cell :=
  match dict_lookup r k with
  | Some c => Ok c
  | None => Raise (KeyError k)
  end.

(** ** Effects: standard output, provider calls, files written *)

Record world : Type := {
  stdout : list string;                   (* one entry per [print] *)
  api_calls : nat;                        (* provider calls made so far *)
  api_key : option string;                (* [openai.api_key] *)
  files : list (string * list row)        (* frames written by [to_csv] *)
}.

(** The world after the provider was called once. *)
Definition called (w : world) : world :=
  {| stdout := stdout w; api_calls := S (api_calls w);
     api_key := api_key w; files := files w |}.

(** The world after one line was printed. *)
Definition printed (s : string) (w : world) : world :=
  {| stdout := stdout w ++ [s]; api_calls := api_calls w;
     api_key := api_key w; files := files w |}.

Definition Py (A : Type) : Type := world -> result A * world.

(** A computation that only adds to the standard output. *)
Definition stdout_grows {A} (c : Py A) : Prop :=
  forall w, exists extra, stdout (snd (c w)) = (stdout w ++ extra)%list.

Definition ret {A} (a : A) : Py A := fun w => (Ok a, w).
Definition raise {A} (e : exn) : Py A := fun w => (Raise e, w).
Definition bind {A B} (c : Py A) (k : A -> Py B) : Py B :=
  fun w =>
    match c w with
    | (Ok a, w') => k a w'
    | (Raise e, w') => (Raise e, w')
    end.
Definition lift {A} (x : result A) : Py A := fun w => (x, w).

Declare Scope py_scope.
Delimit Scope py_scope with py.
Notation "x <- c ;; k" := (bind c (fun x => k))
  (at level 61, c at next level, right associativity) : py_scope.
Notation "c ;; k" := (bind c (fun _ => k))
  (at level 61, right associativity) : py_scope.

Definition print (s : string) : Py unit := fun w => (Ok tt, printed s w).

(** [try: body  except Exception as e: handler e] *)
Definition try_except_Exception {A} (body : Py A) (handler : exn -> Py A) : Py A :=
  fun w =>
    match body w with
    | (Ok a, w') => (Ok a, w')
    | (Raise e, w') => if is_Exception e then handler e w' else (Raise e, w')
    end.

(** ** The classifier *)

(** The sentinel verdict of the [except] branch of [get_gpt_analysis]. *)
Definition fallback_analysis : CompanyAnalysis := {|
  is_saas := false;
  growth_potential := 0;
  risk_level := 10;
  key_strengths := ["Analysis failed"];
  concerns := ["Analysis failed"];
  target_market := "Unknown";
  competitive_advantage := "Unknown"
|}.

(** The f-string [prompt] of [get_gpt_analysis]. *)
Definition analysis_prompt (company_name description industry : string) : string :=
  nl ++ "        Analyze this company and provide structured insights:" ++
  nl ++ "        Company: " ++ company_name ++
  nl ++ "        Industry: " ++ industry ++
  nl ++ "        Description: " ++ description ++
  nl ++ "        ".

(** The content of the one system message sent to the provider. *)
Definition system_content (prompt : string) : string :=
  "You are a venture capital analyst expert at analyzing technology companies. " ++
  "Provide analysis in structured JSON format. " ++ prompt.

Section Classifier.
(** The collaborators the program calls but does not define. *)

(** [json.loads] *)
Variable json_loads : string -> result pyval.

(** [openai.beta.chat.completions.parse(...)] followed by
    [.choices[0].message.parsed]: what the [n]-th call answers to a
    system message, a validated [CompanyAnalysis] or an exception.  The
    answer is typed as [get_gpt_analysis] annotates it
    ([-> CompanyAnalysis]): a refusal, where [parsed] is [None], is not
    among the answers. *)
Variable openai_parse : nat -> string -> result CompanyAnalysis.

(** [os.getenv], [pd.read_csv] and [datetime.now().year] *)
Variable getenv : string -> option string.
Variable read_csv : string -> result (list Company).
Variable now_year : Z.

Definition call_provider (content : string) : Py CompanyAnalysis :=
  fun w => (openai_parse (api_calls w) content, called w).

Definition get_gpt_analysis (company_name description industry : string)
  : Py CompanyAnalysis :=
  let prompt := analysis_prompt company_name description industry in
  try_except_Exception
    (call_provider (system_content prompt))
    (fun e =>
       (print ("GPT analysis failed for " ++ company_name ++ ": " ++ exn_str e) ;;
        ret fallback_analysis)%py).

Definition is_founded_recently (self : CompanyClassifier) (founded_year : Z) : bool :=
  current_year self - founded_year <=? 5.

Definition has_valid_employee_count (employee_count : Z) : bool :=
  (20 <=? employee_count) && (employee_count <=? 60).

Definition is_north_american (headquarters : string) : bool :=
  existsb (fun country => str_contains country headquarters) ["USA"; "Canada"].

Definition is_mostly_north_american (locations : string) : result bool :=
  try_except_all
    (loc_dict <- json_loads (str_replace_char apostrophe double_quote locations) ;;
     values <- py_values loc_dict ;;
     total_employees <- py_sum values ;;
     usa <- py_get loc_dict "USA" (PyInt 0) ;;
     canada <- py_get loc_dict "Canada" (PyInt 0) ;;
     na_employees <- py_add usa canada ;;
     ratio <- py_truediv na_employees total_employees ;;
     Ok (B64.ltb B64.half ratio))%result
    (Ok false).

(** [basic_criteria_met]: the five heuristics under short-circuit [and]. *)
Definition basic_criteria_met (self : CompanyClassifier) (company : Company)
  : result bool :=
  py_and (Ok (is_founded_recently self (founded_year company)))
 (py_and (Ok (has_valid_employee_count (total_employees company)))
 (py_and (Ok (is_north_american (headquarters company)))
 (py_and (is_mostly_north_american (employee_locations company))
         (has_stable_growth b64 (growth_2y company) (growth_1y company)
                            (growth_6m company))))).

(** [advanced_criteria_met] *)
Definition advanced_criteria_met (gpt_analysis : CompanyAnalysis) : bool :=
  is_saas gpt_analysis &&
  (7 <=? growth_potential gpt_analysis) &&
  (risk_level gpt_analysis <=? 6).

(** The dict appended to [results]. *)
Definition result_row (company : Company) (gpt_analysis : CompanyAnalysis)
           (interesting : bool) : row :=
  [ ("Company Name", CStr (company_name company));
    ("Founded Year", CInt (founded_year company));
    ("Total Employees", CInt (total_employees company));
    ("Headquarters", CStr (headquarters company));
    ("Industry", CStr (industry company));
    ("Growth Potential", CInt (growth_potential gpt_analysis));
    ("Risk Level", CInt (risk_level gpt_analysis));
    ("Key Strengths", CStr (str_join ", " (key_strengths gpt_analysis)));
    ("Concerns", CStr (str_join ", " (concerns gpt_analysis)));
    ("Target Market", CStr (target_market gpt_analysis));
    ("Competitive Advantage", CStr (competitive_advantage gpt_analysis));
    ("Interesting", CStr (if interesting then "Yes" else "No")) ].

(** The body of the loop of [classify_companies], for one row of [self.df]. *)
Definition classify_company (self : CompanyClassifier) (company : Company) : Py row :=
  (gpt_analysis <- get_gpt_analysis (company_name company) (description company)
                                    (industry company) ;;
   basic <- lift (basic_criteria_met self company) ;;
   let advanced := advanced_criteria_met gpt_analysis in
   let interesting := basic && advanced in
   ret (result_row company gpt_analysis interesting))%py.

Fixpoint classify_loop (self : CompanyClassifier) (rows : list Company)
         (results : list row) : Py (list row) :=
  match rows with
  | [] => ret results
  | company :: rest =>
      (r <- classify_company self company ;;
       classify_loop self rest (results ++ [r]))%py
  end.

Definition classify_companies (self : CompanyClassifier) : Py (list row) :=
  classify_loop self (df self) [].

(** ** [main] *)

(** [CompanyClassifier(data_path, openai_key)] *)
Definition CompanyClassifier_init (data_path openai_key : string)
  : Py CompanyClassifier :=
  (frame <- lift (read_csv data_path) ;;
   fun w =>
     (Ok {| df := frame; current_year := now_year |},
      {| stdout := stdout w; api_calls := api_calls w;
         api_key := Some openai_key; files := files w |}))%py.

(** [results.to_csv(path, index=False)], for a path that can be written. *)
Definition to_csv (results : list row) (path : string) : Py unit :=
  fun w =>
    (Ok tt, {| stdout := stdout w; api_calls := api_calls w;
               api_key := api_key w; files := files w ++ [(path, results)] |}).

Definition is_yes (c : cell) : bool :=
  match c with
  | CStr s => String.eqb s "Yes"
  | CInt _ => false
  end.

(** [results[results['Interesting'] == 'Yes']]; a frame built from no
    row has no column, and indexing it raises KeyError. *)
Definition interesting_rows (results : list row) : result (list row) :=
  match results with
  | [] => Raise (KeyError "Interesting")
  | _ =>
      Ok (filter (fun r => match dict_lookup r "Interesting" with
                           | Some c => is_yes c
                           | None => false
                           end) results)
  end.

(** [(interesting/total)*100] formatted with [:.1f] and followed by [%]. *)
Definition percentage_interesting (interesting total : Z) : string :=
  format_1f (B64.mul (B64.div (B64.of_Z interesting) (B64.of_Z total)) (B64.of_Z 100))
  ++ "%".

Fixpoint print_companies (companies : list row) : Py unit :=
  match companies with
  | [] => ret tt
  | company :: rest =>
      (name <- lift (row_get company "Company Name") ;;
       ind <- lift (row_get company "Industry") ;;
       print (nl ++ "- " ++ cell_str name ++ " (" ++ cell_str ind ++ ")") ;;
       gp <- lift (row_get company "Growth Potential") ;;
       print ("  Growth Potential: " ++ cell_str gp ++ "/10") ;;
       rl <- lift (row_get company "Risk Level") ;;
       print ("  Risk Level: " ++ cell_str rl ++ "/10") ;;
       ks <- lift (row_get company "Key Strengths") ;;
       print ("  Key Strengths: " ++ cell_str ks) ;;
       ca <- lift (row_get company "Competitive Advantage") ;;
       print ("  Competitive Advantage: " ++ cell_str ca) ;;
       print_companies rest)%py
  end.

(** The summary [main] prints once the results are there. *)
Definition print_summary (results : list row) : Py unit :=
  (let total := Z.of_nat (List.length results) in
   yes <- lift (interesting_rows results) ;;
   let interesting := Z.of_nat (List.length yes) in
   print (nl ++ "Classification Results:") ;;
   print ("Total companies analyzed: " ++ str_of_int total) ;;
   print ("Interesting companies: " ++ str_of_int interesting) ;;
   print ("Percentage interesting: " ++ percentage_interesting interesting total) ;;
   print (nl ++ "Interesting Companies:") ;;
   interesting_companies <- lift (interesting_rows results) ;;
   print_companies interesting_companies)%py.

Definition main : Py unit :=
  match getenv "OPENAI_API_KEY" with
  | None | Some EmptyString =>
      raise (ValueError "Please set OPENAI_API_KEY environment variable")
  | Some openai_key =>
      (classifier <- CompanyClassifier_init "data/data.csv" openai_key ;;
       results <- classify_companies classifier ;;
       to_csv results "classified_companies_detailed.csv" ;;
       print_summary results)%py
  end.
End Classifier.

(** ** Scaling a rate by a power of two *)

Module Scaling.
(** The double [2^k], for [-1022 <= k <= 1023]. *)
Definition pow2 (k : Z) : B64.float := S754_finite false 4503599627370496 (k - 52).

(** [x] with its exponent moved by [k]. *)
Definition shift_exponent (k : Z) (x : B64.float) : B64.float :=
  match x with
  | S754_finite s m e => S754_finite s m (e + k)
  | _ => x
  end.

(** The rates that [2^k] scales without rounding, with room for the
    halving and the doubling of [has_stable_growth]: zero of either sign,
    and the normal doubles (a mantissa of 53 bits) that lie, as their
    product by [2^k] does, in absolute value in [[2^-1020, 2^1023)]. *)
Definition scalable (k : Z) (x : B64.float) : bool :=
  match x with
  | S754_zero _ => true
  | S754_finite _ m e =>
      (2 ^ 52 <=? Zpos m) && (Zpos m <? 2 ^ 53) &&
      (-1072 <=? e) && (e <=? 970) && (-1072 <=? e + k) && (e + k <=? 970)
  | _ => false
  end.
End Scaling.

(** ** Reference definitions, following the specification's words *)

Module Spec.
Definition fmax (x y : B64.float) : B64.float := if B64.ltb x y then y else x.
Definition fmin (x y : B64.float) : B64.float := if B64.ltb y x then y else x.
Definition positive_rate (x : B64.float) : bool := B64.ltb (B64.of_Z 0) x.

(** Section 4.1: with an undefined 2-year rate, stable iff
    1-year > 6-month > 0; otherwise annualize (2-year / 2, 1-year,
    6-month * 2) and require the three rates strictly positive and
    max / min strictly below 3. *)
Definition stable_growth (rate_2y rate_1y rate_6m : B64.float) : bool :=
  if B64.is_nan rate_2y then
    B64.ltb rate_6m rate_1y && B64.ltb (B64.of_Z 0) rate_6m
  else
    let a2 := B64.div rate_2y (B64.of_Z 2) in
    let a1 := rate_1y in
    let a6 := B64.mul rate_6m (B64.of_Z 2) in
    positive_rate a2 && positive_rate a1 && positive_rate a6 &&
    B64.ltb (B64.div (fmax (fmax a2 a1) a6) (fmin (fmin a2 a1) a6)) (B64.of_Z 3).

(** Section 4.5: the percentage with one decimal place, an exact tie
    rounded away from zero ([0 <= interesting], [0 < total]). *)
Definition percentage_half_away (interesting total : Z) : string :=
  let t := (2000 * interesting + total) / (2 * total) in
  str_of_int (t / 10) ++ "." ++ str_of_int (t mod 10) ++ "%".

(** Section 3: both scores of a verdict lie in [0, 10]. *)
Definition scores_in_range (v : CompanyAnalysis) : Prop :=
  0 <= growth_potential v <= 10 /\ 0 <= risk_level v <= 10.
End Spec.

(** ** Distributions of integer counts

    What ['{region: count, ...}'] parses to when every count is an int:
    the dict, the count of a region and the total over all regions. *)

Definition int_members (counts : list (string * Z)) : list (string * pyval) :=
  map (fun kv => (fst kv, PyInt (snd kv))) counts.

Definition count_of (counts : list (string * Z)) (region : string) : Z :=
  match dict_lookup (dict_items counts) region with
  | Some n => n
  | None => 0
  end.

Definition total_count (counts : list (string * Z)) : Z :=
  fold_left Z.add (map snd (dict_items counts)) 0.

(** ** Sample collaborators and inputs *)

Module Sample.
Definition dq : string := String double_quote "".

(** ['USA': 60, 'UK': 40] once the quotes are replaced. *)
Definition usa_uk_text : string :=
  "{" ++ dq ++ "USA" ++ dq ++ ": 60, " ++ dq ++ "UK" ++ dq ++ ": 40}".

(** [json.loads] on the one text above; everything else is malformed. *)
Definition loads (s : string) : result pyval :=
  if String.eqb s usa_uk_text
  then Ok (PyDict [("USA", PyInt 60); ("UK", PyInt 40)])
  else Raise (JSONDecodeError "Expecting value").

Definition verdict (saas : bool) (growth risk : Z) : CompanyAnalysis := {|
  is_saas := saas;
  growth_potential := growth;
  risk_level := risk;
  key_strengths := ["Recurring revenue"; "Low churn"];
  concerns := ["Crowded market"];
  target_market := "SMB";
  competitive_advantage := "Integrations"
|}.

(** A provider that always answers with the same verdict. *)
Definition answers (v : CompanyAnalysis) (n : nat) (content : string)
  : result CompanyAnalysis := Ok v.

(** A provider whose every call fails. *)
Definition fails (n : nat) (content : string) : result CompanyAnalysis :=
  Raise (OtherException "APIConnectionError" "Connection error.").

Definition company (g2 g1 g6 : B64.float) : Company := {|
  company_name := "Acme";
  description := "Billing software";
  industry := "Software";
  founded_year := 2022;
  total_employees := 30;
  headquarters := "Austin, USA";
  employee_locations := "{'USA': 60, 'UK': 40}";
  growth_2y := g2;
  growth_1y := g1;
  growth_6m := g6
|}.

Definition acme : Company := company (B64.of_Z 40) (B64.of_Z 20) (B64.of_Z 10).

Definition classifier : CompanyClassifier := {| df := [acme]; current_year := 2025 |}.

Definition start : world :=
  {| stdout := []; api_calls := 0; api_key := None; files := [] |}.

(** Seven records, and a provider whose first three verdicts pass. *)
Definition seven : list Company := repeat acme 7.

Definition first_three (n : nat) (content : string) : result CompanyAnalysis :=
  if Nat.ltb n 3 then Ok (verdict true 8 3) else Ok (verdict true 8 7).

(** The double nearest to [0.7]. *)
Definition seven_tenths : B64.float :=
  Eval cbv in B64.div (B64.of_Z 7) (B64.of_Z 10).
End Sample.

(** * Properties *)

(** ** Binary64: results that are never NaN, and the order around zero *)

Module B64Facts.
Import B64.

Lemma shr_1_nonneg mrs : 0 <= shr_m mrs -> 0 <= shr_m (shr_1 mrs).
Proof.
  destruct mrs as [m r s]; simpl.
  destruct m as [|p|p]; simpl; try lia.
  destruct p; simpl; lia.
Qed.

Lemma iter_pos_invariant {T} (P : T -> Prop) (f : T -> T) :
  (forall x, P x -> P (f x)) ->
  forall n x, P x -> P (iter_pos f n x).
Proof.
  intros Hf n; induction n as [n IH|n IH|]; intros x Hx; simpl; auto.
Qed.

Lemma shr_record_of_loc_m m l : shr_m (shr_record_of_loc m l) = m.
Proof. destruct l as [|[]]; reflexivity. Qed.

Lemma shr_fexp_nonneg m e l :
  0 <= m -> 0 <= shr_m (fst (shr_fexp prec emax m e l)).
Proof.
  intros Hm. unfold shr_fexp, shr.
  destruct (fexp prec emax (Zdigits2 m + e) - e) as [|n|n]; simpl;
    try (rewrite shr_record_of_loc_m; exact Hm).
  apply (iter_pos_invariant (fun x => 0 <= shr_m x)).
  - exact shr_1_nonneg.
  - rewrite shr_record_of_loc_m; exact Hm.
Qed.

Lemma round_nearest_even_nonneg m l : 0 <= m -> 0 <= round_nearest_even m l.
Proof.
  intros Hm. destruct l as [|[]]; simpl; try lia.
  destruct (Z.even m); lia.
Qed.

Lemma binary_round_aux_not_nan s m e l :
  0 <= m -> is_nan (binary_round_aux prec emax s m e l) = false.
Proof.
  intros Hm. unfold binary_round_aux.
  pose proof (shr_fexp_nonneg m e l Hm) as H1.
  destruct (shr_fexp prec emax m e l) as [mrs' e'] eqn:E1. simpl in H1.
  pose proof (shr_fexp_nonneg _ e' loc_Exact
                (round_nearest_even_nonneg _ (loc_of_shr_record mrs') H1)) as H2.
  destruct (shr_fexp prec emax _ e' loc_Exact) as [mrs'' e''] eqn:E2. simpl in H2.
  destruct (shr_m mrs'') as [|p|p]; try reflexivity.
  - destruct (e'' <=? emax - prec); reflexivity.
  - lia.
Qed.

Lemma div_core_quotient_nonneg m1 e1 m2 e2 :
  0 <= m1 -> 0 < m2 ->
  0 <= fst (fst (SFdiv_core_binary prec emax m1 e1 m2 e2)).
Proof.
  intros H1 H2. unfold SFdiv_core_binary.
  set (s := e1 - e2 - _).
  set (m' := match s with Z0 => m1 | Zpos _ => Z.shiftl m1 s | Zneg _ => 0 end).
  assert (Hm' : 0 <= m').
  { subst m'. destruct s; try lia. apply Z.shiftl_nonneg. exact H1. }
  pose proof (Z.div_pos m' m2 Hm' H2) as Hq.
  unfold Z.div in Hq.
  destruct (Z.div_eucl m' m2) as [q r]. exact Hq.
Qed.

(** Dividing by a finite non-zero double never makes a NaN of a number. *)
Lemma div_finite_not_nan x sy my ey :
  is_nan x = false -> is_nan (div x (S754_finite sy my ey)) = false.
Proof.
  intros Hx. destruct x as [sx|sx| |sx mx ex]; try reflexivity; try discriminate.
  unfold div, SFdiv.
  pose proof (div_core_quotient_nonneg (Zpos mx) ex (Zpos my) ey
                ltac:(lia) ltac:(lia)) as Hq.
  destruct (SFdiv_core_binary prec emax (Zpos mx) ex (Zpos my) ey) as [[q e] l].
  apply binary_round_aux_not_nan. exact Hq.
Qed.

(** Multiplying by a finite non-zero double never makes a NaN of a number. *)
Lemma mul_finite_not_nan x sy my ey :
  is_nan x = false -> is_nan (mul x (S754_finite sy my ey)) = false.
Proof.
  intros Hx. destruct x as [sx|sx| |sx mx ex]; try reflexivity; try discriminate.
  unfold mul, SFmul. apply binary_round_aux_not_nan. lia.
Qed.

Lemma of_Z_0 : of_Z 0 = S754_zero false.
Proof. reflexivity. Qed.

Lemma of_Z_2 : of_Z 2 = S754_finite false 4503599627370496 (-51).
Proof. reflexivity. Qed.

Lemma of_Z_3 : of_Z 3 = S754_finite false 6755399441055744 (-51).
Proof. reflexivity. Qed.

Lemma ltb_nan_l y : ltb S754_nan y = false.
Proof. reflexivity. Qed.

Lemma ltb_not_nan_l x y : ltb x y = true -> is_nan x = false.
Proof. destruct x; try reflexivity. discriminate. Qed.

(** A number that is not [<= 0] is [> 0]. *)
Lemma not_le_zero_pos x :
  is_nan x = false -> leb x (S754_zero false) = negb (ltb (S754_zero false) x).
Proof.
  destruct x as [s|s| |s m e]; try discriminate; intros _;
    try destruct s; reflexivity.
Qed.

(** A number that is not below a positive one is positive. *)
Lemma pos_of_not_lt x m :
  is_nan x = false ->
  ltb (S754_zero false) m = true -> ltb x m = false ->
  ltb (S754_zero false) x = true.
Proof.
  destruct x as [s|s| |s mx ex]; try discriminate; intros _;
    destruct m as [t|t| |t mm em]; try discriminate;
    try destruct s; try destruct t; try discriminate; try reflexivity.
Qed.

Lemma pos_not_zero x : ltb (S754_zero false) x = true -> is_zero x = false.
Proof. destruct x; try reflexivity. discriminate. Qed.

Lemma fmin_cases x y : Spec.fmin x y = x \/ Spec.fmin x y = y.
Proof. unfold Spec.fmin. destruct (ltb y x); auto. Qed.

Lemma fmin_not_nan x y : is_nan x = false -> is_nan (Spec.fmin x y) = false.
Proof.
  intros Hx. unfold Spec.fmin. destruct (ltb y x) eqn:E; [|exact Hx].
  exact (ltb_not_nan_l _ _ E).
Qed.
End B64Facts.

(** ** Binary64: the rounded quotient of two ints against one half *)

Module B64Division.
Import B64 B64Facts.

Lemma digits2_pos_size p : digits2_pos p = Pos.size p.
Proof. induction p; simpl; congruence. Qed.

Lemma Zdigits2_log2 n : 0 < n -> Zdigits2 n = Z.log2 n + 1.
Proof.
  destruct n as [|p|p]; try lia. intros _. simpl.
  rewrite digits2_pos_size. destruct p; simpl; lia.
Qed.

Lemma Zdigits2_bounds n : 0 < n -> 2 ^ (Zdigits2 n - 1) <= n < 2 ^ Zdigits2 n.
Proof.
  intros H. rewrite Zdigits2_log2 by exact H.
  replace (Z.log2 n + 1 - 1) with (Z.log2 n) by lia.
  pose proof (Z.log2_spec n H). replace (Z.log2 n + 1) with (Z.succ (Z.log2 n)) by lia.
  exact H0.
Qed.

Lemma Zdigits2_unique n d : 0 < d -> 2 ^ (d - 1) <= n < 2 ^ d -> Zdigits2 n = d.
Proof.
  intros Hd H. assert (0 < n) by (pose proof (Z.pow_pos_nonneg 2 (d-1)); lia).
  rewrite Zdigits2_log2 by assumption.
  rewrite (Z.log2_unique n (d - 1)); try lia.
  replace (Z.succ (d - 1)) with d by lia. exact H.
Qed.


Lemma loc_of_shr_record_of_loc m l : loc_of_shr_record (shr_record_of_loc m l) = l.
Proof. destruct l as [|[]]; reflexivity. Qed.

Lemma round_nearest_even_cases m l :
  round_nearest_even m l = m \/ round_nearest_even m l = m + 1.
Proof. destruct l as [|[]]; simpl; auto. destruct (Z.even m); auto. Qed.

Lemma shr_1_half m r s :
  0 <= m -> shr_m (shr_1 (Build_shr_record m r s)) = m / 2.
Proof.
  intros Hm. destruct m as [|[p|p|]|]; try lia; try reflexivity.
  - cbn [shr_1 shr_m]. rewrite (Pos2Z.inj_xI p).
    apply Z.div_unique with 1; lia.
  - cbn [shr_1 shr_m]. rewrite (Pos2Z.inj_xO p).
    apply Z.div_unique with 0; lia.
Qed.

(** A mantissa of exactly 53 bits is kept as it is. *)
Lemma finish_53 m e :
  2 ^ 52 <= m < 2 ^ 53 -> -1074 <= e <= 971 ->
  (let '(mrs, e'') := shr_fexp prec emax m e loc_Exact in
   match shr_m mrs with
   | Z0 => S754_zero false
   | Zpos p => if e'' <=? emax - prec then S754_finite false p e'' else S754_infinity false
   | Zneg _ => S754_nan
   end) = S754_finite false (Z.to_pos m) e.
Proof.
  intros Hm He.
  assert (Hd : Zdigits2 m = 53) by (apply Zdigits2_unique; lia).
  unfold shr_fexp. rewrite Hd. unfold fexp, emin, prec, emax.
  replace (Z.max (53 + e - 53) (3 - 1024 - 53) - e) with 0 by lia.
  cbn [shr shr_record_of_loc shr_m].
  destruct m as [|p|p]; try lia.
  replace (e <=? 1024 - 53) with true by (symmetry; apply Z.leb_le; lia).
  reflexivity.
Qed.

(** A carry to [2^53] is renormalized. *)
Lemma finish_54 e :
  -1074 <= e <= 970 ->
  (let '(mrs, e'') := shr_fexp prec emax (2 ^ 53) e loc_Exact in
   match shr_m mrs with
   | Z0 => S754_zero false
   | Zpos p => if e'' <=? emax - prec then S754_finite false p e'' else S754_infinity false
   | Zneg _ => S754_nan
   end) = S754_finite false (Z.to_pos (2 ^ 52)) (e + 1).
Proof.
  intros He.
  unfold shr_fexp. change (Zdigits2 (2 ^ 53)) with 54.
  unfold fexp, emin, prec, emax.
  replace (Z.max (54 + e - 53) (3 - 1024 - 53) - e) with 1 by lia.
  cbn [shr iter_pos]. 
  change (shr_m (shr_1 (shr_record_of_loc (2 ^ 53) loc_Exact))) with (2 ^ 52).
  change (2 ^ 52) with (Zpos (Z.to_pos (2 ^ 52))) at 1.
  cbv iota beta.
  replace (e + 1 <=? 1024 - 53) with true by (symmetry; apply Z.leb_le; lia).
  reflexivity.
Qed.

(** Rounding a mantissa of 53 bits. *)
Lemma round_53 q e l :
  2 ^ 52 <= q < 2 ^ 53 -> -1074 <= e <= 970 ->
  binary_round_aux prec emax false q e l =
  let m := round_nearest_even q l in
  if m <? 2 ^ 53 then S754_finite false (Z.to_pos m) e
  else S754_finite false (Z.to_pos (2 ^ 52)) (e + 1).
Proof.
  intros Hq He. unfold binary_round_aux.
  assert (Hd : Zdigits2 q = 53) by (apply Zdigits2_unique; lia).
  unfold shr_fexp at 1. rewrite Hd.
  unfold fexp at 1. unfold emin, prec at 1 2, emax at 1.
  replace (Z.max (53 + e - 53) (3 - 1024 - 53) - e) with 0 by lia.
  cbn [shr].
  rewrite shr_record_of_loc_m, loc_of_shr_record_of_loc. cbv zeta.
  destruct (round_nearest_even_cases q l) as [Hm|Hm]; rewrite Hm.
  - replace (q <? 2 ^ 53) with true by (symmetry; apply Z.ltb_lt; lia).
    apply finish_53; lia.
  - destruct (Z.ltb_spec (q + 1) (2 ^ 53)).
    + apply finish_53; lia.
    + replace (q + 1) with (2 ^ 53) by lia. apply finish_54; lia.
Qed.

(** Rounding a mantissa of 54 bits: one bit is shifted out first. *)
Lemma round_54 q e l :
  2 ^ 53 <= q < 2 ^ 54 -> -1074 <= e <= 969 ->
  binary_round_aux prec emax false q e l =
  let mrs := shr_1 (shr_record_of_loc q l) in
  let m := round_nearest_even (shr_m mrs) (loc_of_shr_record mrs) in
  if m <? 2 ^ 53 then S754_finite false (Z.to_pos m) (e + 1)
  else S754_finite false (Z.to_pos (2 ^ 52)) (e + 2).
Proof.
  intros Hq He. unfold binary_round_aux.
  assert (Hd : Zdigits2 q = 54) by (apply Zdigits2_unique; lia).
  unfold shr_fexp at 1. rewrite Hd.
  unfold fexp at 1. unfold emin, prec at 1 2, emax at 1.
  replace (Z.max (54 + e - 53) (3 - 1024 - 53) - e) with 1 by lia.
  cbn [shr iter_pos]. cbv zeta.
  set (mrs := shr_1 (shr_record_of_loc q l)).
  assert (Hm1 : shr_m mrs = q / 2).
  { subst mrs. destruct (shr_record_of_loc q l) as [m r s] eqn:E.
    assert (m = q) by (rewrite <- (shr_record_of_loc_m q l), E; reflexivity).
    subst m. apply shr_1_half. lia. }
  assert (Hb : 2 ^ 52 <= shr_m mrs < 2 ^ 53).
  { rewrite Hm1. split.
    - apply Z.div_le_lower_bound; lia.
    - apply Z.div_lt_upper_bound; lia. }
  destruct (round_nearest_even_cases (shr_m mrs) (loc_of_shr_record mrs)) as [Hm|Hm];
    rewrite Hm.
  - replace (shr_m mrs <? 2 ^ 53) with true by (symmetry; apply Z.ltb_lt; lia).
    apply finish_53; lia.
  - destruct (Z.ltb_spec (shr_m mrs + 1) (2 ^ 53)).
    + apply finish_53; lia.
    + replace (shr_m mrs + 1) with (2 ^ 53) by lia.
      replace (e + 2) with (e + 1 + 1) by lia. apply finish_54; lia.
Qed.

Lemma new_location_spec nb k :
  0 < nb -> 0 <= k < nb ->
  new_location nb k = if k =? 0 then loc_Exact else loc_Inexact (2 * k ?= nb).
Proof.
  intros Hnb Hk. unfold new_location.
  destruct (Z.even nb) eqn:Hev.
  - reflexivity.
  - unfold new_location_odd. destruct (k =? 0); [reflexivity|].
    f_equal.
    assert (Hodd : Z.odd nb = true) by (rewrite <- Z.negb_even, Hev; reflexivity).
    apply Z.odd_spec in Hodd. destruct Hodd as [c Hc].
    destruct (Z.compare_spec (2 * k + 1) nb), (Z.compare_spec (2 * k) nb);
      try reflexivity; lia.
Qed.

Lemma div_core a b :
  0 < a < 2 ^ 53 -> 0 < b < 2 ^ 53 ->
  let s := 53 + Zdigits2 b - Zdigits2 a in
  SFdiv_core_binary prec emax a 0 b 0 =
  (a * 2 ^ s / b, - s, new_location b ((a * 2 ^ s) mod b)).
Proof.
  intros Ha Hb s.
  pose proof (Zdigits2_bounds a ltac:(lia)) as Da.
  pose proof (Zdigits2_bounds b ltac:(lia)) as Db.
  assert (D1 : 1 <= Zdigits2 a <= 53).
  { split.
    - rewrite Zdigits2_log2 by lia. pose proof (Z.log2_nonneg a). lia.
    - destruct (Z.le_gt_cases (Zdigits2 a) 53) as [|Hgt]; [assumption|].
      pose proof (Z.pow_le_mono_r 2 53 (Zdigits2 a - 1) ltac:(lia) ltac:(lia)). lia. }
  assert (D2 : 1 <= Zdigits2 b <= 53).
  { split.
    - rewrite Zdigits2_log2 by lia. pose proof (Z.log2_nonneg b). lia.
    - destruct (Z.le_gt_cases (Zdigits2 b) 53) as [|Hgt]; [assumption|].
      pose proof (Z.pow_le_mono_r 2 53 (Zdigits2 b - 1) ltac:(lia) ltac:(lia)). lia. }
  unfold SFdiv_core_binary, fexp, emin, prec, emax.
  replace (Z.min (Z.max (Zdigits2 a + 0 - (Zdigits2 b + 0) - 53) (3 - 1024 - 53)) (0 - 0))
    with (- s) by (subst s; lia).
  replace (0 - 0 - - s) with s by lia.
  assert (Hs : 0 < s) by (subst s; lia).
  destruct s as [|p|p] eqn:Es; try lia.
  rewrite Z.shiftl_mul_pow2 by lia.
  unfold Z.div, Z.modulo.
  destruct (Z.div_eucl (a * 2 ^ Zpos p) b) as [q r]. reflexivity.
Qed.

Lemma ltb_half_finite m e :
  B64.ltb B64.half (S754_finite false m e) = true <->
  -53 < e \/ (e = -53 /\ 2 ^ 52 < Zpos m).
Proof.
  unfold B64.ltb, SFltb, SFcompare, half.
  change (2 ^ 52) with (Zpos 4503599627370496).
  destruct (Z.compare_spec (-53) e) as [He|He|He].
  - rewrite Pos.compare_cont_spec. cbn [Pos.switch_Eq].
    rewrite Pos2Z.inj_compare.
    destruct (Z.compare_spec (Zpos 4503599627370496) (Zpos m)) as [Hm|Hm|Hm].
    + split; [discriminate|]. intros [H|[_ H]]; [lia|]. rewrite Hm in H. lia.
    + split; [intros _; right; split; [lia|exact Hm] | reflexivity].
    + split; [discriminate|]. intros [H|[_ H]]; [lia|].
      elim (Z.lt_asymm _ _ H Hm).
  - split; [intros _; left; lia | reflexivity].
  - split; [discriminate|]. intros [?|[? _]]; lia.
Qed.

Lemma shr_1_spec m r s :
  0 <= m ->
  shr_1 (Build_shr_record m r s) = Build_shr_record (m / 2) (Z.odd m) (r || s).
Proof.
  intros Hm. destruct m as [|[p|p|]|]; try lia; try reflexivity.
  - cbn [shr_1]. f_equal. rewrite (Pos2Z.inj_xI p).
    apply Z.div_unique with 1; lia.
  - cbn [shr_1]. f_equal. rewrite (Pos2Z.inj_xO p).
    apply Z.div_unique with 0; lia.
Qed.

(** The quotient of two positive ints below [2^53], rounded to a double,
    is above one half exactly when twice the dividend exceeds the divisor. *)
Lemma round_quotient_gt_half a b :
  0 < a < 2 ^ 53 -> 0 < b < 2 ^ 53 ->
  exists m e,
    (let '(q, e', l) := SFdiv_core_binary prec emax a 0 b 0 in
     binary_round_aux prec emax false q e' l) = S754_finite false m e /\
    (B64.ltb B64.half (S754_finite false m e) = true <-> b < 2 * a).
Proof.
  intros Ha Hb.
  rewrite (div_core a b Ha Hb). cbv zeta.
  pose proof (Zdigits2_bounds a ltac:(lia)) as Da.
  pose proof (Zdigits2_bounds b ltac:(lia)) as Db.
  set (d1 := Zdigits2 a) in *. set (d2 := Zdigits2 b) in *.
  assert (D1 : 1 <= d1 <= 53).
  { split.
    - subst d1. rewrite Zdigits2_log2 by lia. pose proof (Z.log2_nonneg a). lia.
    - destruct (Z.le_gt_cases d1 53) as [|Hgt]; [assumption|].
      pose proof (Z.pow_le_mono_r 2 53 (d1 - 1) ltac:(lia) ltac:(lia)). lia. }
  assert (D2 : 1 <= d2 <= 53).
  { split.
    - subst d2. rewrite Zdigits2_log2 by lia. pose proof (Z.log2_nonneg b). lia.
    - destruct (Z.le_gt_cases d2 53) as [|Hgt]; [assumption|].
      pose proof (Z.pow_le_mono_r 2 53 (d2 - 1) ltac:(lia) ltac:(lia)). lia. }
  set (s := 53 + d2 - d1).
  assert (Hs : 1 <= s <= 105) by (subst s; lia).
  assert (P1 : 2 ^ d1 = 2 * 2 ^ (d1 - 1)).
  { replace d1 with (1 + (d1 - 1)) at 1 by lia. rewrite Z.pow_add_r by lia. reflexivity. }
  assert (P2 : 2 ^ d2 = 2 * 2 ^ (d2 - 1)).
  { replace d2 with (1 + (d2 - 1)) at 1 by lia. rewrite Z.pow_add_r by lia. reflexivity. }
  assert (P3 : 2 ^ (d1 - 1) * 2 ^ s = 2 ^ 53 * 2 ^ (d2 - 1)).
  { rewrite <- !Z.pow_add_r by lia. f_equal. subst s. lia. }
  assert (Ppos3 : 0 < 2 ^ s) by (apply Z.pow_pos_nonneg; lia).
  (* what the numbers of digits say about [2 * a] and [b] *)
  assert (F1 : s <= 53 -> b < 2 * a).
  { intros Hle. pose proof (Z.pow_le_mono_r 2 d2 d1 ltac:(lia) ltac:(subst s; lia)). lia. }
  assert (F4 : 55 <= s -> 2 * a < b).
  { intros Hge.
    pose proof (Z.pow_le_mono_r 2 d1 (d2 - 2) ltac:(lia) ltac:(subst s; lia)) as Hp.
    assert (2 ^ (d2 - 1) = 2 * 2 ^ (d2 - 2)).
    { replace (d2 - 1) with (1 + (d2 - 2)) by lia.
      rewrite Z.pow_add_r by lia. reflexivity. }
    lia. }
  set (N := a * 2 ^ s).
  pose proof (Z.div_mod N b ltac:(lia)) as HN.
  pose proof (Z.mod_pos_bound N b ltac:(lia)) as Hr.
  set (q := N / b) in *. set (r := N mod b) in *.
  rewrite (new_location_spec b r ltac:(lia) Hr).
  assert (Hlow : 2 ^ (d1 - 1) * 2 ^ s <= N).
  { subst N. apply Z.mul_le_mono_nonneg_r; lia. }
  assert (Hhigh : N < 2 ^ d1 * 2 ^ s).
  { subst N. apply Z.mul_lt_mono_pos_r; lia. }
  assert (Hq : 2 ^ 52 <= q < 2 ^ 54).
  { split.
    - apply Z.div_le_lower_bound; [lia|]. lia.
    - apply Z.div_lt_upper_bound; [lia|]. rewrite P1 in Hhigh. lia. }
  assert (Hbq : b * q <= N < b * q + b) by lia.
  assert (N53 : s = 53 -> N = a * 2 ^ 53) by (intros E; subst N; rewrite E; reflexivity).
  assert (N54 : s = 54 -> N = a * 2 ^ 54) by (intros E; subst N; rewrite E; reflexivity).
  clearbody N q r s d1 d2.
  clear Da Db P1 P2 P3 D1 D2 Hlow Hhigh Ppos3.
  assert (Mlo : forall c, c <= q -> b * c <= b * q)
    by (intros c Hc; apply Z.mul_le_mono_nonneg_l; lia).
  assert (Mhi : forall c, q <= c -> b * q <= b * c)
    by (intros c Hc; apply Z.mul_le_mono_nonneg_l; lia).
  set (l := if r =? 0 then loc_Exact else loc_Inexact (2 * r ?= b)).
  destruct (Z.lt_ge_cases q (2 ^ 53)) as [Hq53|Hq54].
  - (* 53 bits *)
    rewrite round_53 by lia. cbv zeta.
    assert (Hup : s = 53 -> q = 2 ^ 52 -> round_nearest_even q l = q + 1).
    { intros E Eq. specialize (F1 ltac:(lia)). specialize (N53 E).
      pose proof (Mlo (2 ^ 52) ltac:(lia)). pose proof (Mhi (2 ^ 52) ltac:(lia)).
      assert (r <> 0 /\ b < 2 * r) as [Hr0 Hr2] by lia.
      subst l. destruct (Z.eqb_spec r 0); [lia|].
      replace (2 * r ?= b) with Gt by (symmetry; apply Z.compare_gt_iff; lia).
      reflexivity. }
    assert (B54 : s = 54 -> 2 * a < b).
    { intros E. specialize (N54 E). pose proof (Mhi (2 ^ 53 - 1) ltac:(lia)). lia. }
    destruct (round_nearest_even_cases q l) as [Hm|Hm]; rewrite Hm.
    + replace (q <? 2 ^ 53) with true by (symmetry; apply Z.ltb_lt; lia).
      exists (Z.to_pos q), (- s). split; [reflexivity|].
      rewrite ltb_half_finite. rewrite Z2Pos.id by lia.
      split.
      * intros [H|[H1 H2]]; [apply F1; lia | apply F1; lia].
      * intros H. destruct (Z.lt_ge_cases s 53); [left; lia|].
        right. assert (s = 53) by lia.
        split; [lia|].
        destruct (Z.eq_dec q (2 ^ 52)) as [Eq|Nq]; [|lia].
        specialize (Hup ltac:(assumption) Eq). lia.
    + destruct (Z.ltb_spec (q + 1) (2 ^ 53)).
      * exists (Z.to_pos (q + 1)), (- s). split; [reflexivity|].
        rewrite ltb_half_finite. rewrite Z2Pos.id by lia.
        split.
        -- intros [H'|[H1 H2]]; apply F1; lia.
        -- intros H'. destruct (Z.lt_ge_cases s 53); [left; lia|].
           right. split; lia.
      * exists (Z.to_pos (2 ^ 52)), (- s + 1). split; [reflexivity|].
        rewrite ltb_half_finite. rewrite Z2Pos.id by lia.
        split.
        -- intros [H'|[H1 H2]]; [apply F1; lia | lia].
        -- intros H'. left. lia.
  - (* 54 bits: the lowest one is shifted out *)
    rewrite round_54 by lia. cbv zeta.
    set (mrs := shr_1 (shr_record_of_loc q l)).
    assert (Hmrs : shr_m mrs = q / 2 /\
                   (l <> loc_Exact -> Z.odd q = true ->
                    loc_of_shr_record mrs = loc_Inexact Gt) /\
                   (l = loc_Exact -> Z.odd q = false ->
                    loc_of_shr_record mrs = loc_Exact)).
    { subst mrs. destruct l as [|[]]; cbn [shr_record_of_loc];
        rewrite shr_1_spec by lia; cbn [shr_m loc_of_shr_record orb];
        (split; [reflexivity|]); split; intros H1 H2; try rewrite H2;
        try reflexivity; try congruence. }
    destruct Hmrs as [Hm1 [Hgt Hex]].
    assert (Hb1 : 2 ^ 52 <= shr_m mrs < 2 ^ 53).
    { rewrite Hm1. split.
      - apply Z.div_le_lower_bound; lia.
      - apply Z.div_lt_upper_bound; lia. }
    assert (Hq2 : 2 * shr_m mrs <= q <= 2 * shr_m mrs + 1).
    { rewrite Hm1. pose proof (Z.div_mod q 2 ltac:(lia)).
      pose proof (Z.mod_pos_bound q 2 ltac:(lia)). lia. }
    assert (A54 : s = 54 -> b <= 2 * a).
    { intros E. specialize (N54 E). pose proof (Mlo (2 ^ 53) ltac:(lia)). lia. }
    (* at s = 54, what the rounding gives on the two sides of one half *)
    assert (Heq : s = 54 -> b = 2 * a ->
                  round_nearest_even (shr_m mrs) (loc_of_shr_record mrs) = 2 ^ 52).
    { intros E Eb. specialize (N54 E).
      assert (Eq : q = 2 ^ 53).
      { destruct (Z.lt_trichotomy q (2 ^ 53)) as [Hlt|[Heq|Hgt0]]; [|exact Heq|].
        - pose proof (Mhi (2 ^ 53 - 1) ltac:(lia)). lia.
        - pose proof (Mlo (2 ^ 53 + 1) ltac:(lia)). lia. }
      assert (Er : r = 0).
      { pose proof (Mlo (2 ^ 53) ltac:(lia)). pose proof (Mhi (2 ^ 53) ltac:(lia)). lia. }
      rewrite Hex.
      - cbn [round_nearest_even]. lia.
      - subst l. rewrite Er. reflexivity.
      - rewrite Eq. reflexivity. }
    assert (Hgt' : s = 54 -> b < 2 * a ->
                   2 ^ 52 < round_nearest_even (shr_m mrs) (loc_of_shr_record mrs)).
    { intros E Eb. specialize (N54 E).
      assert (2 ^ 53 + 1 <= q).
      { destruct (Z.le_gt_cases (2 ^ 53 + 1) q) as [Hle|Hgt0]; [exact Hle|].
        pose proof (Mhi (2 ^ 53) ltac:(lia)). lia. }
      destruct (Z.eq_dec q (2 ^ 53 + 1)) as [Eq|Nq].
      - assert (r <> 0).
        { pose proof (Mlo (2 ^ 53 + 1) ltac:(lia)).
          pose proof (Mhi (2 ^ 53 + 1) ltac:(lia)). lia. }
        rewrite Hgt.
        + cbn [round_nearest_even]. lia.
        + subst l. destruct (Z.eqb_spec r 0); [lia|discriminate].
        + rewrite Eq. reflexivity.
      - destruct (round_nearest_even_cases (shr_m mrs) (loc_of_shr_record mrs))
          as [Hm|Hm]; rewrite Hm; lia. }
    destruct (round_nearest_even_cases (shr_m mrs) (loc_of_shr_record mrs))
      as [Hm|Hm].
    + rewrite Hm in *.
      replace (shr_m mrs <? 2 ^ 53) with true by (symmetry; apply Z.ltb_lt; lia).
      exists (Z.to_pos (shr_m mrs)), (- s + 1). split; [reflexivity|].
      rewrite ltb_half_finite. rewrite Z2Pos.id by lia.
      split.
      * intros [H'|[H1 H2]]; [apply F1; lia|].
        assert (E : s = 54) by lia.
        destruct (Z.eq_dec b (2 * a)) as [Eb|Nb]; [|specialize (A54 E); lia].
        specialize (Heq E Eb). lia.
      * intros H'. destruct (Z.lt_ge_cases s 54); [left; lia|].
        right. assert (E : s = 54) by (specialize (F4); lia).
        split; [lia|]. exact (Hgt' E H').
    + rewrite Hm in *.
      destruct (Z.ltb_spec (shr_m mrs + 1) (2 ^ 53)).
      * exists (Z.to_pos (shr_m mrs + 1)), (- s + 1). split; [reflexivity|].
        rewrite ltb_half_finite. rewrite Z2Pos.id by lia.
        split.
        -- intros [H'|[H1 H2]]; [apply F1; lia|].
           assert (E : s = 54) by lia.
           destruct (Z.eq_dec b (2 * a)) as [Eb|Nb]; [|specialize (A54 E); lia].
           specialize (Heq E Eb). lia.
        -- intros H'. destruct (Z.lt_ge_cases s 54); [left; lia|].
           right. assert (E : s = 54) by (specialize (F4); lia).
           split; lia.
      * exists (Z.to_pos (2 ^ 52)), (- s + 2). split; [reflexivity|].
        rewrite ltb_half_finite. rewrite Z2Pos.id by lia.
        split.
        -- intros [H'|[H1 H2]]; [|lia].
           destruct (Z.le_gt_cases s 53); [apply F1; lia|].
           assert (E : s = 54) by lia.
           destruct (Z.eq_dec b (2 * a)) as [Eb|Nb]; [|specialize (A54 E); lia].
           specialize (Heq E Eb). lia.
        -- intros H'. left. specialize (F4). lia.
Qed.

Lemma int_truediv_gt_half a b :
  0 <= a < 2 ^ 53 -> 0 < b < 2 ^ 53 ->
  exists f,
    int_truediv a b = Ok f /\
    (B64.ltb half f = true <-> b < 2 * a).
Proof.
  intros Ha Hb. unfold int_truediv.
  replace (b =? 0) with false by (symmetry; apply Z.eqb_neq; lia).
  replace (a <? 0) with false by (symmetry; apply Z.ltb_ge; lia).
  replace (b <? 0) with false by (symmetry; apply Z.ltb_ge; lia).
  cbn [xorb].
  destruct (Z.eqb_spec a 0) as [->|Hne].
  - exists (S754_zero false). split; [reflexivity|].
    split; [discriminate | lia].
  - rewrite (Z.abs_eq a) by lia. rewrite (Z.abs_eq b) by lia.
    destruct (round_quotient_gt_half a b ltac:(lia) Hb) as [m [e [Hround Hiff]]].
    destruct (SFdiv_core_binary prec emax a 0 b 0) as [[q e'] l].
    rewrite Hround. cbn [is_inf].
    exists (S754_finite false m e). split; [reflexivity | exact Hiff].
Qed.
End B64Division.

(** ** Growth stability on binary64 *)

Section StableGrowthB64.
Import B64 B64Facts.

(** The annualized rates of a triplet whose 2-year rate is defined. *)
Lemma annualized_rates_b64 g2 g1 g6 :
  annualized_rates b64 g2 g1 g6 = Ok [div g2 (of_Z 2); g1; mul g6 (of_Z 2)].
Proof. reflexivity. Qed.

Lemma py_min_three a b c :
  py_min b64 [a; b; c] = Ok (Spec.fmin (Spec.fmin a b) c).
Proof. reflexivity. Qed.

Lemma py_max_three a b c :
  py_max b64 [a; b; c] = Ok (Spec.fmax (Spec.fmax a b) c).
Proof. reflexivity. Qed.

(** [has_stable_growth] with the binds of the error monad run. *)
Lemma has_stable_growth_b64 g2 g1 g6 :
  has_stable_growth b64 g2 g1 g6 =
  if is_nan g2 then Ok (B64.ltb g6 g1 && B64.ltb (of_Z 0) g6)
  else
    let a2 := div g2 (of_Z 2) in
    let a6 := B64.mul g6 (of_Z 2) in
    let lo := Spec.fmin (Spec.fmin a2 g1) a6 in
    let hi := Spec.fmax (Spec.fmax a2 g1) a6 in
    if B64.leb lo (of_Z 0) then Ok false
    else rbind (B64.truediv hi lo) (fun q => Ok (B64.ltb q (of_Z 3))).
Proof. reflexivity. Qed.

(** The minimum of the annualized rates is a number, whatever the 1-year
    and 6-month rates are: [min] starts from the halved 2-year rate and
    only moves to an item that compares smaller. *)
Lemma min_rate_not_nan g2 g1 g6 :
  is_nan g2 = false ->
  is_nan (Spec.fmin (Spec.fmin (div g2 (of_Z 2)) g1) (B64.mul g6 (of_Z 2))) = false.
Proof.
  intros H2. apply fmin_not_nan, fmin_not_nan.
  rewrite of_Z_2. apply div_finite_not_nan. exact H2.
Qed.

(** Past the guard [min(rates) <= 0] the minimum is strictly positive. *)
Lemma min_rate_positive g2 g1 g6 lo :
  is_nan g2 = false ->
  lo = Spec.fmin (Spec.fmin (div g2 (of_Z 2)) g1) (B64.mul g6 (of_Z 2)) ->
  B64.leb lo (of_Z 0) = false ->
  B64.ltb (of_Z 0) lo = true.
Proof.
  intros H2 -> Hle.
  rewrite of_Z_0 in *.
  rewrite not_le_zero_pos in Hle by (apply min_rate_not_nan; exact H2).
  destruct (B64.ltb _ _); [reflexivity | discriminate].
Qed.

Lemma has_stable_growth_total g2 g1 g6 :
  exists b, has_stable_growth b64 g2 g1 g6 = Ok b.
Proof.
  rewrite has_stable_growth_b64.
  destruct (is_nan g2) eqn:H2; [eexists; reflexivity|].
  cbv zeta.
  destruct (B64.leb _ (of_Z 0)) eqn:Hle; [eexists; reflexivity|].
  pose proof (min_rate_positive g2 g1 g6 _ H2 eq_refl Hle) as Hpos.
  unfold B64.truediv. rewrite of_Z_0 in Hpos.
  rewrite (pos_not_zero _ Hpos). simpl. eexists; reflexivity.
Qed.

(** The guard fails exactly when the three rates are strictly positive. *)
Lemma guard_iff_all_positive a2 a1 a6 :
  is_nan a2 = false -> is_nan a1 = false -> is_nan a6 = false ->
  B64.leb (Spec.fmin (Spec.fmin a2 a1) a6) (of_Z 0) =
  negb (Spec.positive_rate a2 && Spec.positive_rate a1 && Spec.positive_rate a6).
Proof.
  intros N2 N1 N6. unfold Spec.positive_rate. rewrite of_Z_0.
  assert (Nm1 : is_nan (Spec.fmin a2 a1) = false) by (apply fmin_not_nan; exact N2).
  rewrite not_le_zero_pos by (apply fmin_not_nan; exact Nm1).
  f_equal.
  assert (Hmin2 : B64.ltb (S754_zero false) (Spec.fmin a2 a1) =
                  B64.ltb (S754_zero false) a2 && B64.ltb (S754_zero false) a1).
  { unfold Spec.fmin. destruct (B64.ltb a1 a2) eqn:E.
    - destruct (B64.ltb (S754_zero false) a1) eqn:P1.
      + symmetry. apply andb_true_iff. split; [|reflexivity].
        destruct (B64.ltb (S754_zero false) a2) eqn:P2; [reflexivity|].
        exfalso.
        destruct a2 as [s|s| |s m e]; try discriminate;
          destruct a1 as [t|t| |t m1 e1]; try discriminate;
          try destruct s; try destruct t; discriminate.
      + rewrite andb_false_r. reflexivity.
    - destruct (B64.ltb (S754_zero false) a2) eqn:P2.
      + simpl. symmetry. apply (pos_of_not_lt a1 a2 N1 P2 E).
      + reflexivity. }
  unfold Spec.fmin at 1.
  destruct (B64.ltb a6 (Spec.fmin a2 a1)) eqn:E.
  - destruct (B64.ltb (S754_zero false) a6) eqn:P6.
    + rewrite andb_true_r. rewrite <- Hmin2. symmetry.
      destruct (B64.ltb (S754_zero false) (Spec.fmin a2 a1)) eqn:Pm; [reflexivity|].
      exfalso.
      destruct (Spec.fmin a2 a1) as [s|s| |s m e]; try discriminate;
        destruct a6 as [t|t| |t m1 e1]; try discriminate;
        try destruct s; try destruct t; discriminate.
    + rewrite andb_false_r. reflexivity.
  - rewrite <- Hmin2.
    destruct (B64.ltb (S754_zero false) (Spec.fmin a2 a1)) eqn:Pm.
    + simpl. symmetry. apply (pos_of_not_lt a6 _ N6 Pm E).
    + reflexivity.
Qed.

Lemma has_stable_growth_refines_spec g2 g1 g6 :
  is_nan g1 = false -> is_nan g6 = false ->
  has_stable_growth b64 g2 g1 g6 = Ok (Spec.stable_growth g2 g1 g6).
Proof.
  intros N1 N6. rewrite has_stable_growth_b64. unfold Spec.stable_growth.
  destruct (is_nan g2) eqn:N2; [reflexivity|]. cbv zeta.
  assert (Na2 : is_nan (div g2 (of_Z 2)) = false)
    by (rewrite of_Z_2; apply div_finite_not_nan; exact N2).
  assert (Na6 : is_nan (B64.mul g6 (of_Z 2)) = false)
    by (rewrite of_Z_2; apply mul_finite_not_nan; exact N6).
  rewrite (guard_iff_all_positive _ _ _ Na2 N1 Na6).
  destruct (Spec.positive_rate _ && Spec.positive_rate g1 && Spec.positive_rate _)
    eqn:Hpos; cbn [negb andb]; [|reflexivity].
  pose proof (guard_iff_all_positive _ _ _ Na2 N1 Na6) as Hg.
  rewrite Hpos in Hg. cbn [negb] in Hg.
  pose proof (min_rate_positive g2 g1 g6 _ N2 eq_refl Hg) as Hlo.
  rewrite of_Z_0 in Hlo.
  unfold B64.truediv. rewrite (pos_not_zero _ Hlo). reflexivity.
Qed.
End StableGrowthB64.

(** ** The port and the engine *)

Section Engine.
Variable json_loads : string -> result pyval.
Variable openai_parse : nat -> string -> result CompanyAnalysis.

Lemma get_gpt_analysis_ok n d i w v :
  openai_parse (api_calls w) (system_content (analysis_prompt n d i)) = Ok v ->
  get_gpt_analysis openai_parse n d i w = (Ok v, called w).
Proof.
  intros H. unfold get_gpt_analysis, try_except_Exception, call_provider.
  rewrite H. reflexivity.
Qed.

Lemma get_gpt_analysis_caught n d i w e :
  openai_parse (api_calls w) (system_content (analysis_prompt n d i)) = Raise e ->
  is_Exception e = true ->
  get_gpt_analysis openai_parse n d i w =
  (Ok fallback_analysis,
   printed ("GPT analysis failed for " ++ n ++ ": " ++ exn_str e) (called w)).
Proof.
  intros H He. unfold get_gpt_analysis, try_except_Exception, call_provider.
  rewrite H, He. reflexivity.
Qed.

Lemma get_gpt_analysis_uncaught n d i w e :
  openai_parse (api_calls w) (system_content (analysis_prompt n d i)) = Raise e ->
  is_Exception e = false ->
  get_gpt_analysis openai_parse n d i w = (Raise e, called w).
Proof.
  intros H He. unfold get_gpt_analysis, try_except_Exception, call_provider.
  rewrite H, He. reflexivity.
Qed.

(** A verdict the port returns is the provider's own or the sentinel. *)
Lemma get_gpt_analysis_inv n d i w v w' :
  get_gpt_analysis openai_parse n d i w = (Ok v, w') ->
  openai_parse (api_calls w) (system_content (analysis_prompt n d i)) = Ok v \/
  (exists e,
     openai_parse (api_calls w) (system_content (analysis_prompt n d i)) = Raise e /\
     is_Exception e = true /\ v = fallback_analysis).
Proof.
  intros H.
  destruct (openai_parse (api_calls w) (system_content (analysis_prompt n d i)))
    as [v0|e] eqn:E.
  - rewrite (get_gpt_analysis_ok _ _ _ _ _ E) in H. left. congruence.
  - destruct (is_Exception e) eqn:He.
    + rewrite (get_gpt_analysis_caught _ _ _ _ _ E He) in H.
      right. exists e. repeat split; congruence.
    + rewrite (get_gpt_analysis_uncaught _ _ _ _ _ E He) in H. discriminate.
Qed.

(** The bare [except] makes the predicate total. *)
Lemma is_mostly_north_american_total locations :
  exists b, is_mostly_north_american json_loads locations = Ok b.
Proof.
  unfold is_mostly_north_american, try_except_all.
  match goal with |- exists b, match ?body with _ => _ end = _ =>
    destruct body as [b|e] end; eauto.
Qed.

Lemma basic_criteria_met_eq self company mostly stable :
  is_mostly_north_american json_loads (employee_locations company) = Ok mostly ->
  has_stable_growth b64 (growth_2y company) (growth_1y company) (growth_6m company)
    = Ok stable ->
  basic_criteria_met json_loads self company =
  Ok (is_founded_recently self (founded_year company) &&
      has_valid_employee_count (total_employees company) &&
      is_north_american (headquarters company) &&
      mostly && stable).
Proof.
  intros Hm Hs. unfold basic_criteria_met, py_and. rewrite Hm, Hs.
  destruct (is_founded_recently _ _), (has_valid_employee_count _),
    (is_north_american _), mostly; reflexivity.
Qed.

Lemma classify_company_eq self company w gpt w' basic :
  get_gpt_analysis openai_parse (company_name company) (description company)
                   (industry company) w = (Ok gpt, w') ->
  basic_criteria_met json_loads self company = Ok basic ->
  classify_company json_loads openai_parse self company w =
  (Ok (result_row company gpt (basic && advanced_criteria_met gpt)), w').
Proof.
  intros Hg Hb. unfold classify_company, bind, lift, ret.
  rewrite Hg, Hb. reflexivity.
Qed.

Lemma interesting_column company gpt interesting :
  dict_lookup (result_row company gpt interesting) "Interesting" =
  Some (CStr (if interesting then "Yes" else "No")).
Proof. reflexivity. Qed.
End Engine.

(** C1. For every company record whose verdict the port has returned, the
    row the engine builds has 'Interesting' = "Yes" exactly when the five
    heuristic predicates hold and the verdict has [is_saas],
    [growth_potential >= 7] and [risk_level <= 6]; otherwise it has "No". *)
Theorem interesting_iff_heuristics_and_external :
  forall json_loads openai_parse self company w gpt w',
    get_gpt_analysis openai_parse (company_name company) (description company)
                     (industry company) w = (Ok gpt, w') ->
    exists mostly stable r,
      is_mostly_north_american json_loads (employee_locations company) = Ok mostly /\
      has_stable_growth b64 (growth_2y company) (growth_1y company)
                        (growth_6m company) = Ok stable /\
      classify_company json_loads openai_parse self company w = (Ok r, w') /\
      (dict_lookup r "Interesting" = Some (CStr "Yes") <->
       (is_founded_recently self (founded_year company) = true /\
        has_valid_employee_count (total_employees company) = true /\
        is_north_american (headquarters company) = true /\
        mostly = true /\ stable = true) /\
       (is_saas gpt = true /\ 7 <= growth_potential gpt /\ risk_level gpt <= 6)) /\
      (dict_lookup r "Interesting" <> Some (CStr "Yes") ->
       dict_lookup r "Interesting" = Some (CStr "No")).
Proof.
  intros jl op self c w gpt w' Hg.
  destruct (is_mostly_north_american_total jl (employee_locations c)) as [mostly Hm].
  destruct (has_stable_growth_total (growth_2y c) (growth_1y c) (growth_6m c))
    as [stable Hs].
  pose proof (classify_company_eq jl op self c w gpt w' _ Hg
                (basic_criteria_met_eq jl self c mostly stable Hm Hs)) as Hc.
  exists mostly, stable. eexists. split; [exact Hm|]. split; [exact Hs|].
  split; [exact Hc|].
  clear Hc Hg Hm Hs.
  rewrite interesting_column. unfold advanced_criteria_met.
  destruct (is_founded_recently self (founded_year c)),
    (has_valid_employee_count (total_employees c)),
    (is_north_american (headquarters c)), mostly, stable, (is_saas gpt);
    cbn [andb];
    try (split;
         [split; [intros H; discriminate H
                 | intros [[? [? [? [? ?]]]] [? ?]]; discriminate]
         | reflexivity]).
  destruct (Z.leb_spec 7 (growth_potential gpt)) as [Hgp|Hgp],
    (Z.leb_spec (risk_level gpt) 6) as [Hrl|Hrl]; cbn [andb].
  - split; [split; [intros _; repeat split; auto | reflexivity]
           | intros Hno; elim Hno; reflexivity].
  - split; [split; [intros Hyes; discriminate Hyes | intros [_ [_ [_ ?]]]; lia]
           | reflexivity].
  - split; [split; [intros Hyes; discriminate Hyes | intros [_ [_ [? _]]]; lia]
           | reflexivity].
  - split; [split; [intros Hyes; discriminate Hyes | intros [_ [_ [? _]]]; lia]
           | reflexivity].
Qed.

Lemma interesting_iff_heuristics_and_external_witness :
  exists mostly stable r,
    is_mostly_north_american Sample.loads (employee_locations Sample.acme) = Ok mostly /\
    has_stable_growth b64 (growth_2y Sample.acme) (growth_1y Sample.acme)
                      (growth_6m Sample.acme) = Ok stable /\
    classify_company Sample.loads (Sample.answers (Sample.verdict true 8 3))
                     Sample.classifier Sample.acme Sample.start
    = (Ok r, called Sample.start) /\
    (dict_lookup r "Interesting" = Some (CStr "Yes") <->
     (is_founded_recently Sample.classifier (founded_year Sample.acme) = true /\
      has_valid_employee_count (total_employees Sample.acme) = true /\
      is_north_american (headquarters Sample.acme) = true /\
      mostly = true /\ stable = true) /\
     (is_saas (Sample.verdict true 8 3) = true /\
      7 <= growth_potential (Sample.verdict true 8 3) /\
      risk_level (Sample.verdict true 8 3) <= 6)) /\
    (dict_lookup r "Interesting" <> Some (CStr "Yes") ->
     dict_lookup r "Interesting" = Some (CStr "No")).
Proof.
  apply (interesting_iff_heuristics_and_external
           Sample.loads (Sample.answers (Sample.verdict true 8 3))
           Sample.classifier Sample.acme Sample.start
           (Sample.verdict true 8 3) (called Sample.start)).
  reflexivity.
Defined.

(** C3. When the provider call raises an exception (an instance of
    [Exception]), the port returns the sentinel verdict instead of the
    error, and the engine still builds the row of that record, with
    'Interesting' = "No". *)
Theorem provider_failure_yields_sentinel :
  forall json_loads openai_parse self company w e,
    openai_parse (api_calls w)
      (system_content (analysis_prompt (company_name company) (description company)
                                       (industry company))) = Raise e ->
    is_Exception e = true ->
    exists w' r,
      get_gpt_analysis openai_parse (company_name company) (description company)
                       (industry company) w =
      (Ok {| is_saas := false;
             growth_potential := 0;
             risk_level := 10;
             key_strengths := ["Analysis failed"];
             concerns := ["Analysis failed"];
             target_market := "Unknown";
             competitive_advantage := "Unknown" |}, w') /\
      classify_company json_loads openai_parse self company w = (Ok r, w') /\
      dict_lookup r "Interesting" = Some (CStr "No").
Proof.
  intros jl op self c w e Hraise He.
  pose proof (get_gpt_analysis_caught op _ _ _ w e Hraise He) as Hg.
  destruct (is_mostly_north_american_total jl (employee_locations c)) as [mostly Hm].
  destruct (has_stable_growth_total (growth_2y c) (growth_1y c) (growth_6m c))
    as [stable Hs].
  pose proof (classify_company_eq jl op self c w _ _ _ Hg
                (basic_criteria_met_eq jl self c mostly stable Hm Hs)) as Hc.
  do 2 eexists. split; [exact Hg|]. split; [exact Hc|].
  rewrite interesting_column.
  replace (advanced_criteria_met fallback_analysis) with false by reflexivity.
  rewrite andb_false_r. reflexivity.
Qed.

Lemma provider_failure_yields_sentinel_witness :
  exists w' r,
    get_gpt_analysis Sample.fails (company_name Sample.acme) (description Sample.acme)
                     (industry Sample.acme) Sample.start =
    (Ok {| is_saas := false;
           growth_potential := 0;
           risk_level := 10;
           key_strengths := ["Analysis failed"];
           concerns := ["Analysis failed"];
           target_market := "Unknown";
           competitive_advantage := "Unknown" |}, w') /\
    classify_company Sample.loads Sample.fails Sample.classifier Sample.acme
                     Sample.start = (Ok r, w') /\
    dict_lookup r "Interesting" = Some (CStr "No").
Proof.
  apply (provider_failure_yields_sentinel
           Sample.loads Sample.fails Sample.classifier Sample.acme Sample.start
           (OtherException "APIConnectionError" "Connection error.")).
  - reflexivity.
  - reflexivity.
Defined.

(** C4, as stated: every verdict the port returns has both scores in
    [0, 10].  A provider answer with [growth_potential = 11] is handed on
    as it is. *)
Lemma scores_not_validated :
  ~ (forall openai_parse n d i w v w',
       get_gpt_analysis openai_parse n d i w = (Ok v, w') ->
       Spec.scores_in_range v).
Proof.
  intros H.
  specialize (H (Sample.answers (Sample.verdict true 11 3)) "Acme" "" ""
                Sample.start (Sample.verdict true 11 3) (called Sample.start)
                eq_refl).
  unfold Spec.scores_in_range in H. simpl in H. lia.
Qed.

(** C4, amended. A verdict the port returns is either the provider's
    answer, unchanged, or the sentinel, whose scores are 0 and 10 and so
    lie in [0, 10]. *)
Theorem verdict_is_provider_answer_or_sentinel :
  forall openai_parse n d i w v w',
    get_gpt_analysis openai_parse n d i w = (Ok v, w') ->
    openai_parse (api_calls w) (system_content (analysis_prompt n d i)) = Ok v \/
    ((exists e,
        openai_parse (api_calls w) (system_content (analysis_prompt n d i)) = Raise e) /\
     growth_potential v = 0 /\ risk_level v = 10 /\ Spec.scores_in_range v).
Proof.
  intros op n d i w v w' H.
  destruct (get_gpt_analysis_inv op n d i w v w' H) as [Hok|[e [Hr [_ ->]]]].
  - left. exact Hok.
  - right. split; [exists e; exact Hr|].
    unfold Spec.scores_in_range. simpl. lia.
Qed.

Lemma verdict_is_provider_answer_or_sentinel_witness :
  Sample.fails (api_calls Sample.start)
    (system_content (analysis_prompt "Acme" "" "")) = Ok fallback_analysis \/
  ((exists e,
      Sample.fails (api_calls Sample.start)
        (system_content (analysis_prompt "Acme" "" "")) = Raise e) /\
   growth_potential fallback_analysis = 0 /\ risk_level fallback_analysis = 10 /\
   Spec.scores_in_range fallback_analysis).
Proof.
  apply (verdict_is_provider_answer_or_sentinel
           Sample.fails "Acme" "" "" Sample.start fallback_analysis
           (printed "GPT analysis failed for Acme: Connection error."
                    (called Sample.start))).
  reflexivity.
Defined.

(** C5, as stated: the emitted row carries the two intermediate booleans.
    Two runs with different heuristics verdicts emit the same row, so no
    reader of the row can give them back. *)
Lemma intermediate_booleans_not_in_row :
  ~ exists read : row -> bool * bool,
      forall json_loads self company gpt basic,
        basic_criteria_met json_loads self company = Ok basic ->
        read (result_row company gpt (basic && advanced_criteria_met gpt)) =
        (basic, advanced_criteria_met gpt).
Proof.
  intros [read H].
  pose proof (H Sample.loads Sample.classifier Sample.acme
                (Sample.verdict false 8 3) true eq_refl) as H1.
  pose proof (H Sample.loads {| df := [Sample.acme]; current_year := 2040 |}
                Sample.acme (Sample.verdict false 8 3) false eq_refl) as H2.
  cbn [andb] in H1, H2.
  replace (advanced_criteria_met (Sample.verdict false 8 3)) with false in H1, H2
    by reflexivity.
  cbn [andb] in H1, H2. rewrite H1 in H2. discriminate H2.
Qed.

Lemma classify_company_inv json_loads openai_parse self company w r w' :
  classify_company json_loads openai_parse self company w = (Ok r, w') ->
  exists gpt interesting, r = result_row company gpt interesting.
Proof.
  unfold classify_company, bind, lift, ret. intros H.
  destruct (get_gpt_analysis openai_parse _ _ _ w) as [[gpt|e] w1]; [|discriminate].
  destruct (basic_criteria_met json_loads self company) as [b|e]; [|discriminate].
  injection H as <- _. eauto.
Qed.

(** C5, amended. Every emitted row has exactly twelve columns: the five
    echoed fields, the six verdict fields and the 'Interesting' flag. *)
Theorem result_row_columns :
  forall json_loads openai_parse self company w r w',
    classify_company json_loads openai_parse self company w = (Ok r, w') ->
    map fst r =
    ["Company Name"; "Founded Year"; "Total Employees"; "Headquarters"; "Industry";
     "Growth Potential"; "Risk Level"; "Key Strengths"; "Concerns";
     "Target Market"; "Competitive Advantage"; "Interesting"] /\
    (dict_lookup r "Interesting" = Some (CStr "Yes") \/
     dict_lookup r "Interesting" = Some (CStr "No")).
Proof.
  intros jl op self c w r w' H.
  destruct (classify_company_inv jl op self c w r w' H) as [gpt [b ->]].
  split; [reflexivity|].
  rewrite interesting_column. destruct b; auto.
Qed.

Lemma result_row_columns_witness :
  map fst (result_row Sample.acme (Sample.verdict true 8 3) true) =
  ["Company Name"; "Founded Year"; "Total Employees"; "Headquarters"; "Industry";
   "Growth Potential"; "Risk Level"; "Key Strengths"; "Concerns";
   "Target Market"; "Competitive Advantage"; "Interesting"] /\
  (dict_lookup (result_row Sample.acme (Sample.verdict true 8 3) true) "Interesting"
   = Some (CStr "Yes") \/
   dict_lookup (result_row Sample.acme (Sample.verdict true 8 3) true) "Interesting"
   = Some (CStr "No")).
Proof.
  apply (result_row_columns
           Sample.loads (Sample.answers (Sample.verdict true 8 3))
           Sample.classifier Sample.acme Sample.start
           (result_row Sample.acme (Sample.verdict true 8 3) true)
           (called Sample.start)).
  reflexivity.
Defined.

(** C9. [is_founded_recently] bounds the age from above only: a founded
    year after the current year always passes. *)
Theorem founded_in_future_is_recent :
  forall self founded_year,
    current_year self < founded_year ->
    is_founded_recently self founded_year = true.
Proof.
  intros self y H. unfold is_founded_recently. apply Z.leb_le. lia.
Qed.

Lemma founded_in_future_is_recent_witness :
  is_founded_recently Sample.classifier 2031 = true.
Proof.
  apply (founded_in_future_is_recent Sample.classifier 2031).
  reflexivity.
Defined.




(** C7. With a defined 2-year rate, whenever the guard [min(rates) <= 0]
    lets the evaluation through, the divisor of the ratio is strictly
    positive and the division returns; the evaluator raises on no triplet. *)
Theorem ratio_division_is_safe :
  forall growth_2y growth_1y growth_6m,
    (exists b, has_stable_growth b64 growth_2y growth_1y growth_6m = Ok b) /\
    (B64.is_nan growth_2y = false ->
     exists rates lo hi,
       annualized_rates b64 growth_2y growth_1y growth_6m = Ok rates /\
       py_min b64 rates = Ok lo /\
       py_max b64 rates = Ok hi /\
       (B64.leb lo (B64.of_Z 0) = false ->
        B64.ltb (B64.of_Z 0) lo = true /\
        B64.truediv hi lo = Ok (B64.div hi lo))).
Proof.
  intros g2 g1 g6. split; [apply has_stable_growth_total|].
  intros N2. do 3 eexists.
  split; [apply annualized_rates_b64|].
  split; [apply py_min_three|].
  split; [apply py_max_three|].
  intros Hle.
  pose proof (min_rate_positive g2 g1 g6 _ N2 eq_refl Hle) as Hpos.
  split; [exact Hpos|].
  unfold B64.truediv. rewrite B64Facts.of_Z_0 in Hpos.
  rewrite (B64Facts.pos_not_zero _ Hpos). reflexivity.
Qed.

Lemma ratio_division_is_safe_witness :
  (exists b, has_stable_growth b64 (B64.of_Z 40) (B64.of_Z 20) (B64.of_Z 10) = Ok b) /\
  exists rates lo hi,
    annualized_rates b64 (B64.of_Z 40) (B64.of_Z 20) (B64.of_Z 10) = Ok rates /\
    py_min b64 rates = Ok lo /\
    py_max b64 rates = Ok hi /\
    B64.leb lo (B64.of_Z 0) = false /\
    B64.ltb (B64.of_Z 0) lo = true /\
    B64.truediv hi lo = Ok (B64.div hi lo).
Proof.
  destruct (ratio_division_is_safe (B64.of_Z 40) (B64.of_Z 20) (B64.of_Z 10))
    as [Htotal Hdiv].
  split; [exact Htotal|].
  destruct (Hdiv eq_refl) as [rates [lo [hi [Hr [Hlo [Hhi Hsafe]]]]]].
  exists rates, lo, hi.
  assert (Hle : B64.leb lo (B64.of_Z 0) = false).
  { rewrite annualized_rates_b64 in Hr. injection Hr as <-.
    rewrite py_min_three in Hlo. injection Hlo as <-. reflexivity. }
  destruct (Hsafe Hle) as [Hpos Hq].
  repeat split; assumption.
Defined.

(** ** The geography predicate *)

Section MostlyNorthAmerican.
Variable json_loads : string -> result pyval.

Lemma dict_set_int_members d k v :
  dict_set (int_members d) k (PyInt v) = int_members (dict_set d k v).
Proof.
  induction d as [|[k' v'] d IH]; simpl; [reflexivity|].
  destruct (String.eqb k' k); simpl; [reflexivity|].
  rewrite IH. reflexivity.
Qed.

Lemma dict_items_int_members counts :
  dict_items (int_members counts) = int_members (dict_items counts).
Proof.
  unfold dict_items.
  change (@nil (string * pyval)) with (int_members []).
  generalize (@nil (string * Z)) as acc.
  induction counts as [|[k v] counts IH]; intros acc; simpl; [reflexivity|].
  rewrite dict_set_int_members. apply IH.
Qed.

Lemma dict_lookup_int_members d k :
  dict_lookup (int_members d) k = option_map PyInt (dict_lookup d k).
Proof.
  induction d as [|[k' v'] d IH]; simpl; [reflexivity|].
  destruct (String.eqb k' k); [reflexivity | exact IH].
Qed.

Lemma py_sum_ints_from l a :
  fold_left (fun acc v => rbind acc (fun x => py_add x v)) (map PyInt l)
            (Ok (PyInt a)) =
  Ok (PyInt (fold_left Z.add l a)).
Proof.
  revert a. induction l as [|z l IH]; intros a; simpl; [reflexivity|].
  apply IH.
Qed.

Lemma values_int_members d : map snd (int_members d) = map PyInt (map snd d).
Proof.
  unfold int_members. rewrite !map_map. reflexivity.
Qed.

Lemma py_sum_int_members counts :
  py_sum (map snd (dict_items (int_members counts))) = Ok (PyInt (total_count counts)).
Proof.
  rewrite dict_items_int_members, values_int_members.
  unfold py_sum, total_count. apply py_sum_ints_from.
Qed.

Lemma py_get_int_members counts region :
  py_get (PyDict (int_members counts)) region (PyInt 0) =
  Ok (PyInt (count_of counts region)).
Proof.
  unfold py_get, count_of.
  rewrite dict_items_int_members, dict_lookup_int_members.
  destruct (dict_lookup (dict_items counts) region); reflexivity.
Qed.

(** The predicate on a distribution of integer counts. *)
Lemma is_mostly_north_american_counts locations counts :
  json_loads (str_replace_char apostrophe double_quote locations)
    = Ok (PyDict (int_members counts)) ->
  is_mostly_north_american json_loads locations =
  Ok match B64.int_truediv (count_of counts "USA" + count_of counts "Canada")
                           (total_count counts) with
     | Ok ratio => B64.ltb B64.half ratio
     | Raise _ => false
     end.
Proof.
  intros H. unfold is_mostly_north_american. rewrite H.
  cbn [rbind py_values].
  rewrite py_sum_int_members. cbn [rbind].
  rewrite !py_get_int_members. cbn [rbind py_add as_number].
  cbn [py_truediv as_number].
  destruct (B64.int_truediv _ _); reflexivity.
Qed.

Lemma int_truediv_zero a : B64.int_truediv a 0 = Raise ZeroDivisionError.
Proof. reflexivity. Qed.

(** Adding to a number gives a number or raises; adding what is not a
    number raises. *)
Lemma py_add_number a v :
  as_number a <> None ->
  match py_add a v with
  | Ok r => as_number r <> None /\ as_number v <> None
  | Raise _ => True
  end.
Proof.
  intros Ha. unfold py_add.
  destruct (as_number a) as [[x|f]|] eqn:Ea; [| |congruence].
  - destruct (as_number v) as [[y|g]|] eqn:Ev.
    + split; discriminate.
    + destruct (B64.float_of_int x); cbn [rbind]; [split; discriminate | exact I].
    + destruct a; try discriminate Ea; destruct v; exact I.
  - destruct (as_number v) as [[y|g]|] eqn:Ev.
    + destruct (B64.float_of_int y); cbn [rbind]; [split; discriminate | exact I].
    + split; discriminate.
    + destruct a; try discriminate Ea; destruct v; exact I.
Qed.

Lemma py_sum_raise_from l e :
  fold_left (fun acc v => rbind acc (fun x => py_add x v)) l (Raise e) = Raise e.
Proof. induction l as [|v l IH]; simpl; [reflexivity | exact IH]. Qed.

Lemma py_sum_not_number_from l v :
  In v l -> as_number v = None ->
  forall a, as_number a <> None ->
  exists e,
    fold_left (fun acc x => rbind acc (fun y => py_add y x)) l (Ok a) = Raise e.
Proof.
  intros Hin Hv. induction l as [|x l IH]; [destruct Hin|].
  intros a Ha. simpl.
  pose proof (py_add_number a x Ha) as Hadd.
  destruct (py_add a x) as [r|e].
  - destruct Hadd as [Hr Hx]. destruct Hin as [->|Hin]; [congruence|].
    apply (IH Hin r Hr).
  - exists e. apply py_sum_raise_from.
Qed.

(** A dict with a value that is no number is rejected. *)
Lemma is_mostly_north_american_not_number locations members v :
  json_loads (str_replace_char apostrophe double_quote locations)
    = Ok (PyDict members) ->
  In v (map snd (dict_items members)) -> as_number v = None ->
  is_mostly_north_american json_loads locations = Ok false.
Proof.
  intros H Hin Hv. unfold is_mostly_north_american. rewrite H.
  cbn [rbind py_values].
  destruct (py_sum_not_number_from _ v Hin Hv (PyInt 0) ltac:(discriminate))
    as [e He].
  unfold py_sum. rewrite He. reflexivity.
Qed.
End MostlyNorthAmerican.

(** C6. [is_mostly_north_american] never raises.  On a distribution of
    integer counts it is true exactly when 0.5 < (USA + Canada) / total,
    the quotient being Python's [/]; for counts below [2^53], that is
    exactly when the total is positive and less than twice USA + Canada.
    On a text [json.loads] rejects, on a parsed value that is no dict, on
    a dict with a value that is no number, and on a zero total, it is
    false. *)
Theorem is_mostly_north_american_fail_closed :
  forall json_loads locations,
    (exists b, is_mostly_north_american json_loads locations = Ok b) /\
    (forall counts,
       json_loads (str_replace_char apostrophe double_quote locations)
         = Ok (PyDict (int_members counts)) ->
       let na := count_of counts "USA" + count_of counts "Canada" in
       let total := total_count counts in
       (is_mostly_north_american json_loads locations = Ok true <->
        exists ratio,
          B64.int_truediv na total = Ok ratio /\ B64.ltb B64.half ratio = true) /\
       (0 <= na < 2 ^ 53 -> 0 <= total < 2 ^ 53 ->
        (is_mostly_north_american json_loads locations = Ok true <->
         0 < total /\ total < 2 * na)) /\
       (total = 0 ->
        is_mostly_north_american json_loads locations = Ok false)) /\
    (forall e,
       json_loads (str_replace_char apostrophe double_quote locations) = Raise e ->
       is_mostly_north_american json_loads locations = Ok false) /\
    (forall v,
       json_loads (str_replace_char apostrophe double_quote locations) = Ok v ->
       (forall members, v <> PyDict members) ->
       is_mostly_north_american json_loads locations = Ok false) /\
    (forall members v,
       json_loads (str_replace_char apostrophe double_quote locations)
         = Ok (PyDict members) ->
       In v (map snd (dict_items members)) -> as_number v = None ->
       is_mostly_north_american json_loads locations = Ok false).
Proof.
  intros jl locations. split; [apply is_mostly_north_american_total|].
  split; [|split; [|split]];
    [| | | intros members v; apply is_mostly_north_american_not_number].
  - intros counts H. cbv zeta.
    rewrite (is_mostly_north_american_counts jl locations counts H).
    split; [|split].
    + destruct (B64.int_truediv _ _) as [ratio|e] eqn:E.
      * split.
        -- intros Ht. exists ratio. split; [reflexivity | congruence].
        -- intros [r [Hr Hlt]]. injection Hr as <-. rewrite Hlt. reflexivity.
      * split; [discriminate | intros [r [Hr _]]; discriminate].
    + intros Hna Htot.
      destruct (Z.eq_dec (total_count counts) 0) as [E0|Hne].
      * rewrite E0, int_truediv_zero. split; [discriminate | lia].
      * assert (Hpos : 0 < total_count counts < 2 ^ 53) by lia.
        destruct (B64Division.int_truediv_gt_half _ _ Hna Hpos) as [f [Hf Hiff]].
        rewrite Hf. split.
        -- intros Ht. split; [lia|]. apply Hiff. congruence.
        -- intros [_ Hlt]. f_equal. apply Hiff. exact Hlt.
    + intros ->. rewrite int_truediv_zero. reflexivity.
  - intros e H. unfold is_mostly_north_american. rewrite H. reflexivity.
  - intros v H Hnd. unfold is_mostly_north_american. rewrite H.
    destruct v; try reflexivity. elim (Hnd members). reflexivity.
Qed.

Lemma is_mostly_north_american_fail_closed_witness :
  (is_mostly_north_american Sample.loads "{'USA': 60, 'UK': 40}" = Ok true <->
   0 < 100 /\ 100 < 2 * 60) /\
  is_mostly_north_american Sample.loads "USA: most" = Ok false.
Proof.
  destruct (is_mostly_north_american_fail_closed Sample.loads "{'USA': 60, 'UK': 40}")
    as [_ [Hcounts _]].
  destruct (is_mostly_north_american_fail_closed Sample.loads "USA: most")
    as [_ [_ [Hraise _]]].
  split.
  - destruct (Hcounts [("USA", 60); ("UK", 40)] eq_refl) as [_ [Hexact _]].
    apply Hexact; split; [discriminate | reflexivity | discriminate | reflexivity].
  - apply (Hraise (JSONDecodeError "Expecting value")). reflexivity.
Defined.

(** ** The summary percentage *)

(** [round_half_even n d] is an integer nearest to [n / d], and the even
    one of the two when [n / d] lies exactly half way. *)
Lemma round_half_even_nearest n d :
  0 < d ->
  let t := round_half_even n d in
  2 * Z.abs (n - t * d) <= d /\
  (2 * Z.abs (n - t * d) = d -> Z.even t = true).
Proof.
  intros Hd. unfold round_half_even.
  pose proof (Z.div_mod n d ltac:(lia)) as Hdm.
  pose proof (Z.mod_pos_bound n d Hd) as Hr.
  set (q := n / d) in *. set (r := n mod d) in *.
  destruct (Z.compare_spec (2 * r) d) as [Heq|Hlt|Hgt]; cbv zeta.
  - destruct (Z.even q) eqn:Hev.
    + split; [|intros _; exact Hev].
      replace (n - q * d) with r by lia. rewrite Z.abs_eq by lia. lia.
    + split.
      * replace (n - (q + 1) * d) with (r - d) by lia. lia.
      * intros _. rewrite Z.even_add, Hev. reflexivity.
  - replace (n - q * d) with r by lia. rewrite Z.abs_eq by lia.
    split; lia.
  - replace (n - (q + 1) * d) with (r - d) by lia.
    split; lia.
Qed.

(** The tenths printed for [m * 2^e]: with [n / d] the exact value of
    [10 * m * 2^e] in lowest binary terms, the nearest integer, ties to even. *)
Lemma tenths_nearest_even m e :
  let t := tenths m e in
  let n := 10 * Zpos m * 2 ^ Z.max 0 e in
  let d := 2 ^ Z.max 0 (- e) in
  2 * Z.abs (n - t * d) <= d /\
  (2 * Z.abs (n - t * d) = d -> Z.even t = true).
Proof.
  destruct e as [|p|p]; cbv zeta.
  - change (tenths m 0) with (10 * Zpos m * 2 ^ 0).
    change (Z.max 0 0) with 0. change (Z.max 0 (- 0)) with 0.
    change (2 ^ 0) with 1. split; lia.
  - change (tenths m (Zpos p)) with (10 * Zpos m * 2 ^ Zpos p).
    replace (Z.max 0 (Zpos p)) with (Zpos p) by lia.
    replace (Z.max 0 (- Zpos p)) with 0 by lia.
    change (2 ^ 0) with 1. split; lia.
  - change (tenths m (Zneg p)) with (round_half_even (10 * Zpos m) (2 ^ Zpos p)).
    replace (Z.max 0 (Zneg p)) with 0 by lia.
    replace (Z.max 0 (- Zneg p)) with (Zpos p) by lia.
    change (2 ^ 0) with 1. rewrite Z.mul_1_r.
    apply round_half_even_nearest. apply Z.pow_pos_nonneg; lia.
Qed.

Lemma str_append_assoc (a b c : string) : (a ++ b) ++ c = a ++ (b ++ c).
Proof.
  induction a as [|ch a IH]; simpl; [reflexivity|].
  rewrite IH. reflexivity.
Qed.

(** Computations only add to the standard output. *)
Lemma stdout_grows_ret {A} (a : A) : stdout_grows (ret a).
Proof. intros w. exists []. simpl. rewrite app_nil_r. reflexivity. Qed.

Lemma stdout_grows_lift {A} (x : result A) : stdout_grows (lift x).
Proof. intros w. exists []. simpl. rewrite app_nil_r. reflexivity. Qed.

Lemma stdout_grows_print s : stdout_grows (print s).
Proof. intros w. exists [s]. reflexivity. Qed.

Lemma stdout_grows_bind {A B} (c : Py A) (k : A -> Py B) :
  stdout_grows c -> (forall a, stdout_grows (k a)) -> stdout_grows (bind c k).
Proof.
  intros Hc Hk w. unfold bind.
  destruct (Hc w) as [e1 H1].
  destruct (c w) as [[a|e] w1]; simpl in H1.
  - destruct (Hk a w1) as [e2 H2]. exists (e1 ++ e2)%list.
    rewrite H2, H1, app_assoc. reflexivity.
  - exists e1. exact H1.
Qed.

Lemma print_companies_stdout companies : stdout_grows (print_companies companies).
Proof.
  induction companies as [|c rest IH]; cbn [print_companies].
  - apply stdout_grows_ret.
  - repeat (apply stdout_grows_bind;
            [first [apply stdout_grows_lift | apply stdout_grows_print] | intros ?]).
    exact IH.
Qed.

(** Once the results are there, the summary prints the percentage line. *)
Lemma print_summary_percentage results w w' :
  print_summary results w = (Ok tt, w') ->
  exists yes,
    interesting_rows results = Ok yes /\
    In ("Percentage interesting: " ++
        percentage_interesting (Z.of_nat (List.length yes))
                               (Z.of_nat (List.length results)))
       (stdout w').
Proof.
  unfold print_summary. intros H.
  destruct (interesting_rows results) as [yes|e] eqn:Hyes.
  - exists yes. split; [reflexivity|].
    unfold bind, lift, print in H. cbn [fst snd] in H.
    match type of H with
    | print_companies yes ?w5 = _ =>
        destruct (print_companies_stdout yes w5) as [extra Hextra];
        rewrite H in Hextra; cbn [snd printed stdout] in Hextra
    end.
    rewrite Hextra. apply in_or_app. left.
    apply in_or_app. left. apply in_or_app. right. left. reflexivity.
  - unfold bind, lift in H. discriminate H.
Qed.

(** The batch of section 8: seven records, three of them interesting. *)
Example main_prints_three_of_seven :
  In "Percentage interesting: 42.9%"
     (stdout (snd (main Sample.loads Sample.first_three (fun _ => Some "sk-test")
                        (fun _ => Ok Sample.seven) 2025 Sample.start))).
Proof.
  vm_compute. do 3 right. left. reflexivity.
Qed.

(** C8, as stated: the percentage is rounded half away from zero.  One
    interesting result out of 16 is 6.25 percent, printed "6.2%". *)
Lemma percentage_not_half_away :
  percentage_interesting 1 16 = "6.2%" /\
  Spec.percentage_half_away 1 16 = "6.3%" /\
  percentage_interesting 1 16 <> Spec.percentage_half_away 1 16.
Proof.
  split; [vm_compute; reflexivity|].
  split; [vm_compute; reflexivity|].
  vm_compute. discriminate.
Qed.

(** C8, amended. The percentage the summary prints is the double
    [(interesting / total) * 100] with one digit after the point, the
    nearest tenth, an exact tie going to the even digit; 3 out of 7 prints
    "42.9%". *)
Theorem percentage_rounds_half_even :
  percentage_interesting 3 7 = "42.9%" /\
  (forall results w w',
     print_summary results w = (Ok tt, w') ->
     exists yes,
       interesting_rows results = Ok yes /\
       In ("Percentage interesting: " ++
           percentage_interesting (Z.of_nat (List.length yes))
                                  (Z.of_nat (List.length results)))
          (stdout w')) /\
  forall interesting total m e,
    B64.mul (B64.div (B64.of_Z interesting) (B64.of_Z total)) (B64.of_Z 100)
      = S754_finite false m e ->
    let t := tenths m e in
    let n := 10 * Zpos m * 2 ^ Z.max 0 e in
    let d := 2 ^ Z.max 0 (- e) in
    percentage_interesting interesting total =
      str_of_int (t / 10) ++ "." ++ str_of_int (t mod 10) ++ "%" /\
    0 <= t mod 10 < 10 /\
    2 * Z.abs (n - t * d) <= d /\
    (2 * Z.abs (n - t * d) = d -> Z.even t = true).
Proof.
  split; [vm_compute; reflexivity|].
  split; [exact print_summary_percentage|].
  intros i tot m e H. cbv zeta.
  split; [|split].
  - unfold percentage_interesting. rewrite H. cbn [format_1f].
    change ("" ++ ?x) with x.
    rewrite !str_append_assoc. reflexivity.
  - apply Z.mod_pos_bound. lia.
  - apply tenths_nearest_even.
Qed.

Lemma percentage_rounds_half_even_witness :
  percentage_interesting 1 16 = "6" ++ "." ++ "2" ++ "%" /\
  tenths 7036874417766400 (-50) = 62 /\
  Z.even (tenths 7036874417766400 (-50)) = true.
Proof.
  destruct percentage_rounds_half_even as [_ [_ H]].
  destruct (H 1 16 7036874417766400%positive (-50) eq_refl) as [Hs [_ [_ Hev]]].
  split; [exact Hs|].
  split; [reflexivity|].
  apply Hev. reflexivity.
Defined.

(** ** Scaling the growth rates *)

Module B64Scaling.
Import B64 B64Facts B64Division Scaling.

Example pow2_samples :
  pow2 0 = of_Z 1 /\ pow2 1 = of_Z 2 /\ pow2 10 = of_Z 1024 /\ pow2 (-1) = half.
Proof. repeat split. Qed.

(** Shifting out [p] zero bits loses nothing. *)
Lemma iter_shr_exact p :
  forall M, 0 <= M ->
    iter_pos shr_1 p (Build_shr_record (M * 2 ^ Zpos p) false false) =
    Build_shr_record M false false.
Proof.
  assert (Hstep : forall M, 0 <= M ->
            shr_1 (Build_shr_record (M * 2) false false) = Build_shr_record M false false).
  { intros M HM. rewrite shr_1_spec by lia.
    rewrite Z.div_mul by lia.
    replace (Z.odd (M * 2)) with false; [reflexivity|].
    symmetry. rewrite Z.mul_comm, Z.odd_mul. reflexivity. }
  induction p as [p IH|p IH|]; intros M HM; cbn [iter_pos].
  - rewrite (Pos2Z.inj_xI p).
    replace (M * 2 ^ (2 * Zpos p + 1)) with (M * 2 ^ Zpos p * 2 ^ Zpos p * 2)
      by (rewrite Z.pow_add_r by lia;
          replace (2 * Zpos p) with (Zpos p + Zpos p) by lia;
          rewrite Z.pow_add_r by lia; ring).
    pose proof (Z.pow_pos_nonneg 2 (Zpos p) ltac:(lia) ltac:(lia)) as Hp.
    rewrite Hstep by (apply Z.mul_nonneg_nonneg; [apply Z.mul_nonneg_nonneg|]; lia).
    rewrite IH by (apply Z.mul_nonneg_nonneg; lia).
    apply IH. exact HM.
  - rewrite (Pos2Z.inj_xO p).
    replace (M * 2 ^ (2 * Zpos p)) with (M * 2 ^ Zpos p * 2 ^ Zpos p)
      by (replace (2 * Zpos p) with (Zpos p + Zpos p) by lia;
          rewrite Z.pow_add_r by lia; ring).
    pose proof (Z.pow_pos_nonneg 2 (Zpos p) ltac:(lia) ltac:(lia)) as Hp.
    rewrite IH by (apply Z.mul_nonneg_nonneg; lia).
    apply IH. exact HM.
  - change (2 ^ 1) with 2. apply Hstep. exact HM.
Qed.

(** A mantissa of exactly 53 bits is kept, whatever the sign. *)
Lemma finish_53_signed s m e :
  2 ^ 52 <= m < 2 ^ 53 -> -1074 <= e <= 971 ->
  (let '(mrs, e'') := shr_fexp prec emax m e loc_Exact in
   match shr_m mrs with
   | Z0 => S754_zero s
   | Zpos p => if e'' <=? emax - prec then S754_finite s p e'' else S754_infinity s
   | Zneg _ => S754_nan
   end) = S754_finite s (Z.to_pos m) e.
Proof.
  intros Hm He.
  assert (Hd : Zdigits2 m = 53) by (apply Zdigits2_unique; lia).
  unfold shr_fexp. rewrite Hd. unfold fexp, emin, prec, emax.
  replace (Z.max (53 + e - 53) (3 - 1024 - 53) - e) with 0 by lia.
  cbn [shr shr_record_of_loc shr_m].
  destruct m as [|p|p]; try lia.
  replace (e <=? 1024 - 53) with true by (symmetry; apply Z.leb_le; lia).
  reflexivity.
Qed.

(** Rounding [M * 2^t] at exponent [e], for a mantissa [M] of 53 bits:
    the [t] low bits are zero, nothing is lost. *)
Lemma round_exact s M t e :
  2 ^ 52 <= M < 2 ^ 53 -> 0 < t -> -1074 <= e + t <= 971 ->
  binary_round_aux prec emax s (M * 2 ^ t) e loc_Exact = S754_finite s (Z.to_pos M) (e + t).
Proof.
  intros HM Ht He. unfold binary_round_aux.
  pose proof (Z.pow_pos_nonneg 2 t ltac:(lia) ltac:(lia)) as Hp.
  assert (Hd : Zdigits2 (M * 2 ^ t) = 53 + t).
  { apply Zdigits2_unique; [lia|].
    replace (53 + t - 1) with (52 + t) by lia.
    rewrite !Z.pow_add_r by lia. split.
    - apply Z.mul_le_mono_nonneg_r; lia.
    - apply Z.mul_lt_mono_pos_r; lia. }
  unfold shr_fexp at 1. rewrite Hd.
  unfold fexp at 1. unfold emin, prec at 1 2, emax at 1.
  replace (Z.max (53 + t + e - 53) (3 - 1024 - 53) - e) with t by lia.
  destruct t as [|p|p]; try lia.
  cbn [shr shr_record_of_loc].
  rewrite iter_shr_exact by lia.
  cbn [shr_m loc_of_shr_record round_nearest_even].
  apply finish_53_signed; lia.
Qed.

Lemma scalable_finite k s m e :
  scalable k (S754_finite s m e) = true ->
  2 ^ 52 <= Zpos m < 2 ^ 53 /\ -1072 <= e <= 970 /\ -1072 <= e + k <= 970.
Proof.
  cbn [scalable]. rewrite !Bool.andb_true_iff.
  rewrite !Z.leb_le, Z.ltb_lt. lia.
Qed.

(** Multiplying by [2^k] moves the exponent. *)
Lemma mul_pow2 k x : scalable k x = true -> mul (pow2 k) x = shift_exponent k x.
Proof.
  destruct x as [s| | |s m e]; try discriminate.
  - reflexivity.
  - intros H. apply scalable_finite in H. destruct H as (Hm & He & Hk).
    unfold mul, pow2, SFmul. cbn [xorb shift_exponent].
    rewrite Pos2Z.inj_mul, Z.mul_comm.
    change (Zpos 4503599627370496) with (2 ^ 52).
    rewrite round_exact by lia.
    rewrite Pos2Z.id. f_equal. lia.
Qed.

(** Doubling moves the exponent up by one. *)
Lemma mul_two x :
  match x with
  | S754_finite _ m e => 2 ^ 52 <= Zpos m < 2 ^ 53 /\ -1074 <= e + 1 <= 971
  | S754_zero _ => True
  | _ => False
  end ->
  mul x (of_Z 2) = shift_exponent 1 x.
Proof.
  rewrite of_Z_2.
  destruct x as [s| | |s m e]; try contradiction.
  - intros _. destruct s; reflexivity.
  - intros [Hm He]. unfold mul, SFmul. cbn [shift_exponent].
    rewrite Bool.xorb_false_r.
    rewrite Pos2Z.inj_mul.
    change (Zpos 4503599627370496) with (2 ^ 52).
    rewrite round_exact by lia.
    rewrite Pos2Z.id. f_equal. lia.
Qed.

(** Halving moves the exponent down by one. *)
Lemma div_two x :
  match x with
  | S754_finite _ m e => 2 ^ 52 <= Zpos m < 2 ^ 53 /\ -1072 <= e <= 972
  | S754_zero _ => True
  | _ => False
  end ->
  div x (of_Z 2) = shift_exponent (-1) x.
Proof.
  rewrite of_Z_2.
  destruct x as [s| | |s m e]; try contradiction.
  - intros _. destruct s; reflexivity.
  - intros [Hm He]. unfold div, SFdiv. cbn [shift_exponent].
    rewrite Bool.xorb_false_r.
    assert (Hcore : SFdiv_core_binary prec emax (Zpos m) e (Zpos 4503599627370496) (-51)
                    = (Zpos m * 2 ^ 1, e - 2, loc_Exact)).
    { unfold SFdiv_core_binary.
      assert (Hd : Zdigits2 (Zpos m) = 53) by (apply Zdigits2_unique; lia).
      rewrite Hd. change (Zdigits2 (Zpos 4503599627370496)) with 53.
      unfold fexp, emin, prec, emax.
      replace (Z.min (Z.max (53 + e - (53 + -51) - 53) (3 - 1024 - 53)) (e - -51))
        with (e - 2) by lia.
      replace (e - -51 - (e - 2)) with 53 by lia.
      rewrite Z.shiftl_mul_pow2 by lia.
      assert (Hq : Z.div_eucl (Zpos m * 2 ^ 53) (Zpos 4503599627370496)
                   = (Zpos m * 2 ^ 1, 0)).
      { pose proof (Z_div_mod (Zpos m * 2 ^ 53) (Zpos 4503599627370496) ltac:(lia)) as H.
        destruct (Z.div_eucl (Zpos m * 2 ^ 53) (Zpos 4503599627370496)) as [q r].
        destruct H as [H1 H2].
        change (Zpos 4503599627370496) with (2 ^ 52) in *.
        change (2 ^ 53) with (2 ^ 52 * 2) in H1. change (2 ^ 1) with 2.
        assert (r = 0 /\ q = Zpos m * 2) as [-> ->]; [|reflexivity].
        assert (Hr : r = 2 ^ 52 * (Zpos m * 2 - q)) by lia.
        change (2 ^ 52) with 4503599627370496 in *. lia. }
      rewrite Hq. reflexivity. }
    rewrite Hcore.
    rewrite round_exact by lia.
    rewrite Pos2Z.id. f_equal. lia.
Qed.

Lemma compare_shift k x y :
  SFcompare (shift_exponent k x) (shift_exponent k y) = SFcompare x y.
Proof.
  destruct x as [sx|sx| |sx mx ex], y as [sy|sy| |sy my ey]; try reflexivity.
  cbn [shift_exponent SFcompare].
  rewrite (Z.add_comm ex k), (Z.add_comm ey k), Z.add_compare_mono_l. reflexivity.
Qed.

Lemma ltb_shift k x y : ltb (shift_exponent k x) (shift_exponent k y) = ltb x y.
Proof. unfold ltb, SFltb. rewrite compare_shift. reflexivity. Qed.

Lemma leb_shift k x y : leb (shift_exponent k x) (shift_exponent k y) = leb x y.
Proof. unfold leb, SFleb. rewrite compare_shift. reflexivity. Qed.

(** The quotient of two rates scaled alike is the quotient of the rates. *)
Lemma div_shift k x y : div (shift_exponent k x) (shift_exponent k y) = div x y.
Proof.
  destruct x as [sx|sx| |sx mx ex], y as [sy|sy| |sy my ey]; try reflexivity.
  cbn [shift_exponent]. unfold div, SFdiv, SFdiv_core_binary.
  replace (Zdigits2 (Zpos mx) + (ex + k) - (Zdigits2 (Zpos my) + (ey + k)))
    with (Zdigits2 (Zpos mx) + ex - (Zdigits2 (Zpos my) + ey)) by lia.
  replace (ex + k - (ey + k)) with (ex - ey) by lia.
  reflexivity.
Qed.

Lemma truediv_shift k x y :
  truediv (shift_exponent k x) (shift_exponent k y) = truediv x y.
Proof.
  unfold truediv. rewrite div_shift. destruct y; reflexivity.
Qed.

Lemma shift_shift j k x :
  shift_exponent j (shift_exponent k x) = shift_exponent k (shift_exponent j x).
Proof. destruct x; try reflexivity. cbn [shift_exponent]. f_equal. lia. Qed.

Lemma fold_min_shift k l x :
  fold_left (fun m y => if ltb y m then y else m)
            (map (shift_exponent k) l) (shift_exponent k x) =
  shift_exponent k (fold_left (fun m y => if ltb y m then y else m) l x).
Proof.
  revert x. induction l as [|y l IH]; intros x; cbn [map fold_left]; [reflexivity|].
  rewrite ltb_shift. destruct (ltb y x); apply IH.
Qed.

Lemma fold_max_shift k l x :
  fold_left (fun m y => if ltb m y then y else m)
            (map (shift_exponent k) l) (shift_exponent k x) =
  shift_exponent k (fold_left (fun m y => if ltb m y then y else m) l x).
Proof.
  revert x. induction l as [|y l IH]; intros x; cbn [map fold_left]; [reflexivity|].
  rewrite ltb_shift. destruct (ltb x y); apply IH.
Qed.

End B64Scaling.

Section StableGrowthScaling.
Import Scaling.

Lemma py_min_shift k l :
  py_min b64 (map (shift_exponent k) l) =
  rbind (py_min b64 l) (fun r => Ok (shift_exponent k r)).
Proof.
  destruct l as [|x l]; [reflexivity|].
  cbn [map py_min rbind]. f_equal. apply (B64Scaling.fold_min_shift k l x).
Qed.

Lemma py_max_shift k l :
  py_max b64 (map (shift_exponent k) l) =
  rbind (py_max b64 l) (fun r => Ok (shift_exponent k r)).
Proof.
  destruct l as [|x l]; [reflexivity|].
  cbn [map py_max rbind]. f_equal. apply (B64Scaling.fold_max_shift k l x).
Qed.

(** The annualized rates of the scaled triplet are the annualized rates,
    scaled. *)
Lemma annualized_rates_shift k g2 g1 g6 :
  scalable k g2 = true -> scalable k g6 = true ->
  annualized_rates b64 (shift_exponent k g2) (shift_exponent k g1) (shift_exponent k g6) =
  rbind (annualized_rates b64 g2 g1 g6)
        (fun rates => Ok (map (shift_exponent k) rates)).
Proof.
  intros H2 H6. unfold annualized_rates. cbn [truediv mul of_int b64].
  unfold B64.truediv. rewrite B64Facts.of_Z_2. cbn [B64.is_zero rbind].
  rewrite <- B64Facts.of_Z_2.
  cbn [map].
  assert (E2 : B64.div (shift_exponent k g2) (B64.of_Z 2) =
               shift_exponent k (B64.div g2 (B64.of_Z 2))).
  { destruct g2 as [s| | |s m e]; try discriminate H2.
    - rewrite B64Facts.of_Z_2. destruct s; reflexivity.
    - apply B64Scaling.scalable_finite in H2. destruct H2 as (Hm & He & Hk).
      rewrite (B64Scaling.div_two (shift_exponent k (S754_finite s m e)))
        by (cbn [shift_exponent]; lia).
      rewrite (B64Scaling.div_two (S754_finite s m e)) by lia.
      apply B64Scaling.shift_shift. }
  assert (E6 : B64.mul (shift_exponent k g6) (B64.of_Z 2) =
               shift_exponent k (B64.mul g6 (B64.of_Z 2))).
  { destruct g6 as [s| | |s m e]; try discriminate H6.
    - rewrite B64Facts.of_Z_2. destruct s; reflexivity.
    - apply B64Scaling.scalable_finite in H6. destruct H6 as (Hm & He & Hk).
      rewrite (B64Scaling.mul_two (shift_exponent k (S754_finite s m e)))
        by (cbn [shift_exponent]; lia).
      rewrite (B64Scaling.mul_two (S754_finite s m e)) by lia.
      apply B64Scaling.shift_shift. }
  rewrite E2, E6. reflexivity.
Qed.

Lemma has_stable_growth_shift k g2 g1 g6 :
  B64.is_nan g2 = true \/ scalable k g2 = true ->
  scalable k g1 = true -> scalable k g6 = true ->
  has_stable_growth b64 (B64.mul (pow2 k) g2) (B64.mul (pow2 k) g1)
                    (B64.mul (pow2 k) g6) =
  has_stable_growth b64 g2 g1 g6.
Proof.
  intros H2 H1 H6.
  rewrite (B64Scaling.mul_pow2 k g1 H1), (B64Scaling.mul_pow2 k g6 H6).
  unfold has_stable_growth. cbn [isna b64].
  destruct H2 as [H2|H2].
  - destruct g2; try discriminate H2.
    cbn [B64.mul SFmul pow2 B64.is_nan]. unfold gtb. cbn [ltb of_int b64].
    rewrite B64Facts.of_Z_0.
    change (S754_zero false) with (shift_exponent k (S754_zero false)) at 1.
    rewrite !B64Scaling.ltb_shift. reflexivity.
  - rewrite (B64Scaling.mul_pow2 k g2 H2).
    assert (N : B64.is_nan g2 = false) by (destruct g2; try discriminate H2; reflexivity).
    assert (N' : B64.is_nan (shift_exponent k g2) = false)
      by (destruct g2; try discriminate H2; reflexivity).
    rewrite N, N'.
    rewrite annualized_rates_shift by assumption.
    destruct (annualized_rates b64 g2 g1 g6) as [rates|e]; cbn [rbind]; [|reflexivity].
    rewrite py_min_shift.
    destruct (py_min b64 rates) as [lo|e]; cbn [rbind]; [|reflexivity].
    cbn [leb ltb truediv of_int b64].
    rewrite B64Facts.of_Z_0.
    change (S754_zero false) with (shift_exponent k (S754_zero false)) at 1.
    rewrite B64Scaling.leb_shift.
    destruct (B64.leb lo (S754_zero false)); [reflexivity|].
    rewrite py_max_shift.
    destruct (py_max b64 rates) as [hi|e]; cbn [rbind]; [|reflexivity].
    rewrite B64Scaling.truediv_shift. reflexivity.
Qed.
End StableGrowthScaling.

(** C10, as stated: scaling the three rates by a constant [c > 0] never
    changes the verdict.  On doubles, the triplet (2, 3, 1) is unstable
    (max / min is exactly 3) and becomes stable once scaled by 0.7, the
    products being rounded. *)
Lemma b64_stable_growth_not_scale_invariant :
  ~ (forall c growth_2y growth_1y growth_6m,
       B64.ltb (B64.of_Z 0) c = true ->
       has_stable_growth b64 (B64.mul c growth_2y) (B64.mul c growth_1y)
                         (B64.mul c growth_6m) =
       has_stable_growth b64 growth_2y growth_1y growth_6m).
Proof.
  intros H.
  specialize (H Sample.seven_tenths (B64.of_Z 2) (B64.of_Z 3) (B64.of_Z 1) eq_refl).
  vm_compute in H. discriminate H.
Qed.

(** C10, amended. On doubles the evaluator is invariant under scaling the
    three rates by a power of two, [c = 2^k], whenever that scaling is
    exact: each rate is zero or a normal double that lies, as its product
    by [c] does, in absolute value in [[2^-1020, 2^1023)] (the 2-year rate
    may also be undefined).  Every product, the halved 2-year rate and the
    doubled 6-month rate are then computed without rounding. *)
Theorem stable_growth_power_of_two_scaling :
  forall k growth_2y growth_1y growth_6m,
    -1022 <= k <= 1023 ->
    B64.is_nan growth_2y = true \/ Scaling.scalable k growth_2y = true ->
    Scaling.scalable k growth_1y = true ->
    Scaling.scalable k growth_6m = true ->
    has_stable_growth b64 (B64.mul (Scaling.pow2 k) growth_2y)
                      (B64.mul (Scaling.pow2 k) growth_1y)
                      (B64.mul (Scaling.pow2 k) growth_6m) =
    has_stable_growth b64 growth_2y growth_1y growth_6m.
Proof.
  intros k g2 g1 g6 _. apply has_stable_growth_shift.
Qed.

Lemma stable_growth_power_of_two_scaling_witness :
  has_stable_growth b64 (B64.mul (Scaling.pow2 3) (B64.of_Z 2))
                    (B64.mul (Scaling.pow2 3) (B64.of_Z 3))
                    (B64.mul (Scaling.pow2 3) (B64.of_Z 1)) =
  has_stable_growth b64 (B64.of_Z 2) (B64.of_Z 3) (B64.of_Z 1).
Proof.
  apply (stable_growth_power_of_two_scaling 3 (B64.of_Z 2) (B64.of_Z 3) (B64.of_Z 1)).
  - lia.
  - right. reflexivity.
  - reflexivity.
  - reflexivity.
Defined.

(** ** The batch, and the examples of the specification *)

(** [classify_companies] emits one row per record of [self.df], in order,
    each the row [classify_company] builds for that record. *)
Lemma classify_loop_rows json_loads openai_parse self rows :
  forall acc w out w',
    classify_loop json_loads openai_parse self rows acc w = (Ok out, w') ->
    exists rs,
      out = (acc ++ rs)%list /\
      Forall2 (fun company r =>
                 exists w1 w2,
                   classify_company json_loads openai_parse self company w1
                   = (Ok r, w2))
              rows rs.
Proof.
  induction rows as [|c rows IH]; intros acc w out w' H; simpl in H.
  - injection H as <- _. exists []. rewrite app_nil_r. split; constructor.
  - unfold bind in H.
    destruct (classify_company json_loads openai_parse self c w)
      as [[r|e] w1] eqn:Hc; [|discriminate].
    destruct (IH _ _ _ _ H) as [rs [-> Hrs]].
    exists (r :: rs). rewrite <- app_assoc. split; [reflexivity|].
    constructor; [|exact Hrs]. exists w, w1. exact Hc.
Qed.

Example valid_employee_count_bounds :
  has_valid_employee_count 20 = true /\ has_valid_employee_count 19 = false /\
  has_valid_employee_count 60 = true /\ has_valid_employee_count 61 = false.
Proof. repeat split. Qed.

Example mostly_north_american_40_of_90 :
  forall json_loads locations,
    json_loads (str_replace_char apostrophe double_quote locations)
      = Ok (PyDict (int_members [("USA", 30); ("Canada", 10); ("UK", 50)])) ->
    is_mostly_north_american json_loads locations = Ok false.
Proof.
  intros jl locations H.
  rewrite (is_mostly_north_american_counts jl locations _ H). reflexivity.
Qed.

Example mostly_north_american_60_of_100 :
  is_mostly_north_american Sample.loads "{'USA': 60, 'UK': 40}" = Ok true.
Proof. reflexivity. Qed.

Example unparseable_distribution :
  is_mostly_north_american Sample.loads "not a distribution" = Ok false.
Proof. reflexivity. Qed.

Example risk_3_is_interesting :
  exists r w,
    classify_company Sample.loads (Sample.answers (Sample.verdict true 8 3))
                     Sample.classifier Sample.acme Sample.start = (Ok r, w) /\
    dict_lookup r "Interesting" = Some (CStr "Yes").
Proof. do 2 eexists. split; reflexivity. Qed.

Example risk_7_is_not_interesting :
  exists r w,
    classify_company Sample.loads (Sample.answers (Sample.verdict true 8 7))
                     Sample.classifier Sample.acme Sample.start = (Ok r, w) /\
    dict_lookup r "Interesting" = Some (CStr "No").
Proof. do 2 eexists. split; reflexivity. Qed.

(** A missing 1-year rate next to a defined 2-year rate: [min] and [max]
    skip the NaN, and the two remaining rates decide. *)
Example nan_one_year_rate :
  has_stable_growth b64 (B64.of_Z 10) S754_nan (B64.div (B64.of_Z 5) (B64.of_Z 2))
  = Ok true /\
  Spec.stable_growth (B64.of_Z 10) S754_nan (B64.div (B64.of_Z 5) (B64.of_Z 2))
  = false.
Proof. split; reflexivity. Qed.

(** * Further properties of the classifier *)

(** ** Headquarters: the substring test *)

Lemma prefix_iff_append (p s : string) :
  String.prefix p s = true <-> exists t, s = p ++ t.
Proof.
  revert s. induction p as [|a p IH]; intros s.
  - split; [intros _; exists s; reflexivity | intros _; destruct s; reflexivity].
  - destruct s as [|b s]; cbn [String.prefix append].
    + split; [discriminate | intros [t Ht]; discriminate Ht].
    + destruct (Ascii.ascii_dec a b) as [->|Hne].
      * rewrite IH. split; intros [t Ht]; exists t.
        -- rewrite Ht. reflexivity.
        -- injection Ht as Ht. exact Ht.
      * split; [discriminate|]. intros [t Ht]. injection Ht as Hab _.
        congruence.
Qed.

(** [needle in hay] holds exactly when [hay] is some text, then
    [needle], then some text. *)
Lemma str_contains_iff (needle hay : string) :
  str_contains needle hay = true <->
  exists pre post, hay = pre ++ needle ++ post.
Proof.
  split.
  - induction hay as [|c hay IH]; cbn [str_contains]; rewrite orb_true_iff.
    + intros [H|H]; [|discriminate].
      apply prefix_iff_append in H. destruct H as [t Ht].
      exists "", t. exact Ht.
    + intros [H|H].
      * apply prefix_iff_append in H. destruct H as [t Ht].
        exists "", t. exact Ht.
      * destruct (IH H) as [pre [post Hp]].
        exists (String c pre), post. cbn [append]. rewrite Hp. reflexivity.
  - intros [pre [post H]]. subst hay.
    induction pre as [|c pre IH].
    + assert (Hp : String.prefix needle (needle ++ post) = true)
        by (apply prefix_iff_append; exists post; reflexivity).
      cbn [append]. destruct (needle ++ post); cbn [str_contains];
        rewrite Hp; reflexivity.
    + cbn [append str_contains]. rewrite IH. apply orb_true_r.
Qed.

Lemma is_north_american_spec headquarters :
  is_north_american headquarters = true <->
  (exists pre post, headquarters = pre ++ "USA" ++ post) \/
  (exists pre post, headquarters = pre ++ "Canada" ++ post).
Proof.
  unfold is_north_american. cbn [existsb].
  rewrite orb_false_r, orb_true_iff, !str_contains_iff. reflexivity.
Qed.

(** X1. [is_north_american] is true exactly when the headquarters text
    contains "USA" or contains "Canada", as written, anywhere in it. *)
Theorem is_north_american_iff_substring :
  forall headquarters,
    is_north_american headquarters = true <->
    (exists pre post, headquarters = pre ++ "USA" ++ post) \/
    (exists pre post, headquarters = pre ++ "Canada" ++ post).
Proof. exact is_north_american_spec. Qed.

(** ** Growth stability: what a stable verdict says about the rates *)

Module B64Sign.
Import B64.

(** A rounded result carries the sign it was given. *)
Lemma binary_round_aux_pos s m e l :
  B64.ltb (S754_zero false) (binary_round_aux prec emax s m e l) = true -> s = false.
Proof.
  unfold binary_round_aux.
  destruct (shr_fexp prec emax m e l) as [mrs' e'].
  destruct (shr_fexp prec emax _ e' loc_Exact) as [mrs'' e''].
  destruct (shr_m mrs'') as [|p|p].
  - discriminate.
  - destruct (e'' <=? emax - prec); destruct s; try discriminate; reflexivity.
  - discriminate.
Qed.

Lemma div_two_pos g :
  B64.ltb (of_Z 0) (div g (of_Z 2)) = true -> B64.ltb (of_Z 0) g = true.
Proof.
  rewrite B64Facts.of_Z_0, B64Facts.of_Z_2.
  destruct g as [s|s| |s m e]; try discriminate.
  - destruct s; [discriminate | reflexivity].
  - unfold div, SFdiv.
    destruct (SFdiv_core_binary prec emax (Zpos m) e (Zpos 4503599627370496) (-51))
      as [[q e'] l].
    intros H. apply binary_round_aux_pos in H. destruct s; [discriminate | reflexivity].
Qed.

Lemma mul_two_pos g :
  B64.ltb (of_Z 0) (B64.mul g (of_Z 2)) = true -> B64.ltb (of_Z 0) g = true.
Proof.
  rewrite B64Facts.of_Z_0, B64Facts.of_Z_2.
  destruct g as [s|s| |s m e]; try discriminate.
  - destruct s; [discriminate | reflexivity].
  - unfold B64.mul, SFmul.
    intros H. apply binary_round_aux_pos in H. destruct s; [discriminate | reflexivity].
Qed.

(** Above a positive number, a positive number. *)
Lemma pos_trans a b :
  B64.ltb (S754_zero false) a = true -> B64.ltb a b = true ->
  B64.ltb (S754_zero false) b = true.
Proof.
  destruct a as [s|s| |s ma ea]; try discriminate;
    destruct b as [t|t| |t mb eb]; try discriminate;
    try destruct s; try destruct t; try discriminate; try reflexivity.
Qed.
End B64Sign.

(** X2. A stable verdict on a triplet whose 1-year and 6-month rates are
    numbers means that every rate given is strictly positive: the 1-year
    and 6-month rates, and the 2-year rate when it is defined. *)
Theorem stable_growth_rates_are_positive :
  forall growth_2y growth_1y growth_6m,
    B64.is_nan growth_1y = false ->
    B64.is_nan growth_6m = false ->
    has_stable_growth b64 growth_2y growth_1y growth_6m = Ok true ->
    (B64.is_nan growth_2y = true \/ B64.ltb (B64.of_Z 0) growth_2y = true) /\
    B64.ltb (B64.of_Z 0) growth_1y = true /\
    B64.ltb (B64.of_Z 0) growth_6m = true.
Proof.
  intros g2 g1 g6 N1 N6 H.
  rewrite (has_stable_growth_refines_spec g2 g1 g6 N1 N6) in H.
  injection H as H. unfold Spec.stable_growth in H.
  destruct (B64.is_nan g2) eqn:N2.
  - apply andb_true_iff in H. destruct H as [H1 H6].
    split; [left; reflexivity|]. split; [|exact H6].
    rewrite B64Facts.of_Z_0 in *. exact (B64Sign.pos_trans _ _ H6 H1).
  - cbv zeta in H. unfold Spec.positive_rate in H.
    repeat (apply andb_true_iff in H; destruct H as [H ?]).
    split; [right; apply B64Sign.div_two_pos; assumption|].
    split; [assumption | apply B64Sign.mul_two_pos; assumption].
Qed.

Lemma stable_growth_rates_are_positive_witness :
  (B64.is_nan (B64.of_Z 40) = true \/ B64.ltb (B64.of_Z 0) (B64.of_Z 40) = true) /\
  B64.ltb (B64.of_Z 0) (B64.of_Z 20) = true /\
  B64.ltb (B64.of_Z 0) (B64.of_Z 10) = true.
Proof.
  apply (stable_growth_rates_are_positive (B64.of_Z 40) (B64.of_Z 20) (B64.of_Z 10));
    reflexivity.
Defined.

(** ** Geography: a distribution that names neither country *)

Lemma dict_set_keys {V} (d : list (string * V)) k v k' :
  In k' (map fst (dict_set d k v)) <-> k' = k \/ In k' (map fst d).
Proof.
  induction d as [|[k0 v0] d IH]; simpl.
  - split; [intros [H|[]]; auto | intros [H|[]]; auto].
  - destruct (String.eqb_spec k0 k) as [->|Hne]; simpl.
    + split; [intros [H|H]; auto | intros [H|[H|H]]; auto].
    + rewrite IH. split; [intros [H|[H|H]]; auto | intros [H|[H|H]]; auto].
Qed.

Lemma dict_items_keys {V} (members : list (string * V)) k :
  In k (map fst (dict_items members)) <-> In k (map fst members).
Proof.
  unfold dict_items.
  assert (G : forall acc,
             In k (map fst (fold_left (fun d kv => dict_set d (fst kv) (snd kv))
                                      members acc)) <->
             In k (map fst acc) \/ In k (map fst members)).
  { induction members as [|[k0 v0] members IH]; intros acc; simpl.
    - split; [auto | intros [H|[]]; exact H].
    - rewrite IH, dict_set_keys. simpl.
      split; [intros [[H|H]|H]; auto | intros [H|[H|H]]; auto]. }
  rewrite G. simpl. split; [intros [[]|H]; exact H | auto].
Qed.

Lemma dict_lookup_absent {V} (d : list (string * V)) k :
  ~ In k (map fst d) -> dict_lookup d k = None.
Proof.
  induction d as [|[k0 v0] d IH]; simpl; [reflexivity|].
  intros H. destruct (String.eqb_spec k0 k) as [->|Hne].
  - elim H. left. reflexivity.
  - apply IH. intros Hin. apply H. right. exact Hin.
Qed.

(** X3. A distribution that has no entry named "USA" and none named
    "Canada" is never mostly North American, whatever its other regions
    and their values are. *)
Theorem no_usa_no_canada_is_false :
  forall json_loads locations members,
    json_loads (str_replace_char apostrophe double_quote locations)
      = Ok (PyDict members) ->
    ~ In "USA" (map fst members) ->
    ~ In "Canada" (map fst members) ->
    is_mostly_north_american json_loads locations = Ok false.
Proof.
  intros jl locations members H Husa Hcan.
  unfold is_mostly_north_american. rewrite H. cbn [rbind py_values].
  destruct (py_sum _) as [total|e]; [|reflexivity]. cbn [rbind py_get].
  rewrite !dict_lookup_absent by (rewrite dict_items_keys; assumption).
  cbn [rbind]. change (py_add (PyInt 0) (PyInt 0)) with (Ok (PyInt (0 + 0))).
  cbn [rbind]. unfold py_truediv. cbn [as_number].
  destruct (as_number total) as [[y|g]|]; [| |reflexivity].
  - unfold B64.int_truediv. destruct (y =? 0); [reflexivity|].
    change (0 + 0 =? 0) with true. cbv iota. reflexivity.
  - change (B64.float_of_int (0 + 0)) with (Ok (S754_zero false)).
    cbn [rbind]. unfold B64.truediv.
    destruct g as [s|s| |s m e]; reflexivity.
Qed.

Lemma no_usa_no_canada_is_false_witness :
  is_mostly_north_american
    (fun _ => Ok (PyDict [("UK", PyInt 50); ("usa", PyInt 900)])) "{'UK': 50, 'usa': 900}"
  = Ok false.
Proof.
  apply (no_usa_no_canada_is_false
           (fun _ => Ok (PyDict [("UK", PyInt 50); ("usa", PyInt 900)]))
           "{'UK': 50, 'usa': 900}" [("UK", PyInt 50); ("usa", PyInt 900)]).
  - reflexivity.
  - simpl. intros [H|[H|[]]]; discriminate H.
  - simpl. intros [H|[H|[]]]; discriminate H.
Defined.

(** ** The batch: one call and one row per record *)

Section Batch.
Variable json_loads : string -> result pyval.
Variable openai_parse : nat -> string -> result CompanyAnalysis.

Lemma basic_criteria_met_total self company :
  exists b, basic_criteria_met json_loads self company = Ok b.
Proof.
  destruct (is_mostly_north_american_total json_loads (employee_locations company))
    as [mostly Hm].
  destruct (has_stable_growth_total (growth_2y company) (growth_1y company)
                                    (growth_6m company)) as [stable Hs].
  eexists. apply (basic_criteria_met_eq json_loads self company mostly stable Hm Hs).
Qed.

(** The outcome of one turn of the loop, by the provider's answer. *)
Lemma classify_company_cases self company w :
  match openai_parse (api_calls w)
          (system_content (analysis_prompt (company_name company)
                             (description company) (industry company))) with
  | Ok v =>
      exists b, classify_company json_loads openai_parse self company w =
                (Ok (result_row company v b), called w)
  | Raise e =>
      if is_Exception e then
        exists b,
          classify_company json_loads openai_parse self company w =
          (Ok (result_row company fallback_analysis b),
           printed ("GPT analysis failed for " ++ company_name company ++ ": " ++
                    exn_str e) (called w))
      else
        classify_company json_loads openai_parse self company w = (Raise e, called w)
  end.
Proof.
  destruct (basic_criteria_met_total self company) as [basic Hb].
  destruct (openai_parse _ _) as [v|e] eqn:E.
  - eexists.
    apply (classify_company_eq json_loads openai_parse self company w v _ basic);
      [apply get_gpt_analysis_ok; exact E | exact Hb].
  - destruct (is_Exception e) eqn:He.
    + eexists.
      apply (classify_company_eq json_loads openai_parse self company w _ _ basic);
        [apply get_gpt_analysis_caught; assumption | exact Hb].
    + unfold classify_company, bind.
      rewrite (get_gpt_analysis_uncaught openai_parse _ _ _ w e E He). reflexivity.
Qed.

(** A turn of the loop that returns has made one provider call and
    touched neither the files nor the key. *)
Lemma classify_company_returned self company w r w1 :
  classify_company json_loads openai_parse self company w = (Ok r, w1) ->
  api_calls w1 = S (api_calls w) /\ files w1 = files w /\ api_key w1 = api_key w /\
  dict_lookup r "Company Name" = Some (CStr (company_name company)).
Proof.
  intros H. pose proof (classify_company_cases self company w) as Hc.
  destruct (openai_parse _ _) as [v|e].
  - destruct Hc as [b Hc]. rewrite Hc in H. injection H as <- <-. repeat split.
  - destruct (is_Exception e).
    + destruct Hc as [b Hc]. rewrite Hc in H. injection H as <- <-. repeat split.
    + rewrite Hc in H. discriminate H.
Qed.

Lemma classify_loop_returned self rows :
  forall acc w out w',
    classify_loop json_loads openai_parse self rows acc w = (Ok out, w') ->
    exists rs,
      out = (acc ++ rs)%list /\
      List.length rs = List.length rows /\
      api_calls w' = (api_calls w + List.length rows)%nat /\
      files w' = files w /\ api_key w' = api_key w /\
      forall i company,
        nth_error rows i = Some company ->
        exists r wi wi',
          nth_error rs i = Some r /\
          api_calls wi = (api_calls w + i)%nat /\
          classify_company json_loads openai_parse self company wi = (Ok r, wi') /\
          dict_lookup r "Company Name" = Some (CStr (company_name company)).
Proof.
  induction rows as [|c rows IH]; intros acc w out w' H; cbn [classify_loop] in H.
  - injection H as <- <-. exists []. rewrite app_nil_r.
    repeat split; try reflexivity; try (simpl; lia).
    intros i company Hi. destruct i; discriminate Hi.
  - unfold bind in H.
    destruct (classify_company json_loads openai_parse self c w) as [[r|e] w1] eqn:Hr;
      [|discriminate H].
    destruct (classify_company_returned self c w r w1 Hr)
      as [Hcalls [Hfiles [Hkey Hname]]].
    destruct (IH _ _ _ _ H) as [rs [-> [Hlen [Hcalls' [Hfiles' [Hkey' Hnth]]]]]].
    exists (r :: rs).
    split; [rewrite <- app_assoc; reflexivity|].
    split; [simpl; lia|]. split; [simpl; lia|].
    split; [congruence|]. split; [congruence|].
    intros i company Hi. destruct i as [|i].
    + injection Hi as <-. exists r, w, w1.
      repeat split; [lia | exact Hr | exact Hname].
    + destruct (Hnth i company Hi) as [r' [wi [wi' [H1 [H2 [H3 H4]]]]]].
      exists r', wi, wi'. repeat split; try assumption. lia.
Qed.

(** The loop over [done ++ rest] is the loop over [done] followed by the
    loop over [rest]. *)
Lemma classify_loop_app self done rest :
  forall acc w,
    classify_loop json_loads openai_parse self (done ++ rest)%list acc w =
    match classify_loop json_loads openai_parse self done acc w with
    | (Ok rows, w1) => classify_loop json_loads openai_parse self rest rows w1
    | (Raise e, w1) => (Raise e, w1)
    end.
Proof.
  induction done as [|c done IH]; intros acc w; [reflexivity|].
  cbn [app classify_loop]. unfold bind.
  destruct (classify_company json_loads openai_parse self c w) as [[r|e] w1];
    [apply IH | reflexivity].
Qed.
End Batch.

(** X4. Whenever [classify_companies] returns, it returns one row per
    record of [self.df], in the order of the records, the [i]-th row being
    the one built for the [i]-th record at the [i]-th provider call of the
    run; it has made exactly one provider call per record and written no
    file. *)
Theorem classify_companies_one_row_per_record :
  forall json_loads openai_parse self w out w',
    classify_companies json_loads openai_parse self w = (Ok out, w') ->
    List.length out = List.length (df self) /\
    api_calls w' = (api_calls w + List.length (df self))%nat /\
    files w' = files w /\
    forall i company,
      nth_error (df self) i = Some company ->
      exists r wi wi',
        nth_error out i = Some r /\
        api_calls wi = (api_calls w + i)%nat /\
        classify_company json_loads openai_parse self company wi = (Ok r, wi') /\
        dict_lookup r "Company Name" = Some (CStr (company_name company)).
Proof.
  intros jl op self w out w' H.
  destruct (classify_loop_returned jl op self (df self) [] w out w' H)
    as [rs [-> [Hlen [Hcalls [Hfiles [_ Hnth]]]]]].
  cbn [app]. repeat split; assumption.
Qed.

Lemma classify_companies_one_row_per_record_witness :
  exists out w',
    classify_companies Sample.loads Sample.fails Sample.classifier Sample.start
    = (Ok out, w') /\
    List.length out = List.length (df Sample.classifier) /\
    api_calls w' = (api_calls Sample.start + List.length (df Sample.classifier))%nat /\
    files w' = files Sample.start /\
    forall i company,
      nth_error (df Sample.classifier) i = Some company ->
      exists r wi wi',
        nth_error out i = Some r /\
        api_calls wi = (api_calls Sample.start + i)%nat /\
        classify_company Sample.loads Sample.fails Sample.classifier company wi
        = (Ok r, wi') /\
        dict_lookup r "Company Name" = Some (CStr (company_name company)).
Proof.
  do 2 eexists. split; [reflexivity|].
  apply (classify_companies_one_row_per_record
           Sample.loads Sample.fails Sample.classifier Sample.start).
  reflexivity.
Defined.

(** X5. An error of the provider call that is no instance of [Exception]
    (KeyboardInterrupt, SystemExit) aborts the batch: once the records
    before it have been processed, a record whose provider call raises such
    an error makes [classify_companies] raise that error right after the
    call; the rows built so far are not returned, nothing is printed for
    the record and the records after it are not looked at. *)
Theorem classify_companies_aborts_on_interrupt :
  forall json_loads openai_parse self done company rest w rows w1 e,
    df self = (done ++ company :: rest)%list ->
    classify_loop json_loads openai_parse self done [] w = (Ok rows, w1) ->
    openai_parse (api_calls w1)
      (system_content (analysis_prompt (company_name company) (description company)
                                       (industry company))) = Raise e ->
    is_Exception e = false ->
    classify_companies json_loads openai_parse self w = (Raise e, called w1).
Proof.
  intros jl op self done company rest w rows w1 e Hdf Hdone Hop He.
  unfold classify_companies. rewrite Hdf, classify_loop_app, Hdone.
  cbn [classify_loop]. unfold bind.
  pose proof (classify_company_cases jl op self company w1) as Hc.
  rewrite Hop, He in Hc. rewrite Hc. reflexivity.
Qed.

Lemma classify_companies_aborts_on_interrupt_witness :
  classify_companies Sample.loads
    (fun n _ => if Nat.eqb n 1 then Raise KeyboardInterrupt
                else Ok (Sample.verdict true 8 3))
    {| df := [Sample.acme; Sample.acme; Sample.acme]; current_year := 2025 |}
    Sample.start =
  (Raise KeyboardInterrupt,
   {| stdout := []; api_calls := 2; api_key := None; files := [] |}).
Proof.
  apply (classify_companies_aborts_on_interrupt
           Sample.loads
           (fun n _ => if Nat.eqb n 1 then Raise KeyboardInterrupt
                       else Ok (Sample.verdict true 8 3))
           {| df := [Sample.acme; Sample.acme; Sample.acme]; current_year := 2025 |}
           [Sample.acme] Sample.acme [Sample.acme] Sample.start
           [result_row Sample.acme (Sample.verdict true 8 3) true]
           (called Sample.start) KeyboardInterrupt).
  - reflexivity.
  - reflexivity.
  - reflexivity.
  - reflexivity.
Defined.

(** ** The summary and [main] *)

Section Summary.

(** The rows the loop appends are all of the shape of [result_row]. *)
Lemma classify_loop_result_rows json_loads openai_parse self rows acc w out w' :
  classify_loop json_loads openai_parse self rows acc w = (Ok out, w') ->
  Forall (fun r => exists c g b, r = result_row c g b) acc ->
  Forall (fun r => exists c g b, r = result_row c g b) out.
Proof.
  intros H Hacc.
  destruct (classify_loop_rows json_loads openai_parse self rows acc w out w' H)
    as [rs [-> Hrs]].
  apply Forall_app. split; [exact Hacc|].
  clear H. induction Hrs as [|c r l l' [w1 [w2 Hc]] _ IH]; constructor; [|exact IH].
  destruct (classify_company_inv _ _ _ _ _ _ _ Hc) as [g [b ->]]. eauto.
Qed.

(** Listing a row of the frame prints five lines and raises nothing. *)
Lemma print_companies_result_rows companies :
  Forall (fun r => exists c g b, r = result_row c g b) companies ->
  forall w, exists extra,
    print_companies companies w =
    (Ok tt, {| stdout := (stdout w ++ extra)%list; api_calls := api_calls w;
               api_key := api_key w; files := files w |}) /\
    List.length extra = (5 * List.length companies)%nat.
Proof.
  induction 1 as [|r rest [c [g [b ->]]] _ IH]; intros w.
  - exists []. destruct w. cbn [print_companies ret stdout api_calls api_key files].
    rewrite app_nil_r. split; reflexivity.
  - cbn [print_companies]. unfold bind, lift, print.
    change (row_get (result_row c g b) "Company Name") with (Ok (CStr (company_name c))).
    change (row_get (result_row c g b) "Industry") with (Ok (CStr (industry c))).
    change (row_get (result_row c g b) "Growth Potential")
      with (Ok (CInt (growth_potential g))).
    change (row_get (result_row c g b) "Risk Level") with (Ok (CInt (risk_level g))).
    change (row_get (result_row c g b) "Key Strengths")
      with (Ok (CStr (str_join ", " (key_strengths g)))).
    change (row_get (result_row c g b) "Competitive Advantage")
      with (Ok (CStr (competitive_advantage g))).
    cbv beta iota.
    match goal with
    | |- exists extra, print_companies rest ?w5 = _ /\ _ =>
        destruct (IH w5) as [extra [Hrest Hlen]]; rewrite Hrest
    end.
    cbn [printed stdout api_calls api_key files].
    eexists. split.
    + rewrite <- !app_assoc. reflexivity.
    + cbn [List.length app]. repeat rewrite length_app. cbn [List.length]. lia.
Qed.

Lemma interesting_rows_spec results :
  results <> [] ->
  exists yes,
    interesting_rows results = Ok yes /\
    (List.length yes <= List.length results)%nat /\
    Forall (fun r => In r results /\
                     dict_lookup r "Interesting" = Some (CStr "Yes")) yes.
Proof.
  intros Hne. destruct results as [|r0 rest]; [congruence|].
  unfold interesting_rows. eexists. split; [reflexivity|]. split.
  - apply filter_length_le.
  - apply Forall_forall. intros r Hr. apply filter_In in Hr.
    destruct Hr as [Hin Hyes]. split; [exact Hin|].
    destruct (dict_lookup r "Interesting") as [[s|z]|]; try discriminate.
    cbn [is_yes] in Hyes. apply String.eqb_eq in Hyes. subst s. reflexivity.
Qed.

(** The summary over rows of the frame. *)
Lemma print_summary_result_rows results w :
  results <> [] ->
  Forall (fun r => exists c g b, r = result_row c g b) results ->
  exists yes extra,
    interesting_rows results = Ok yes /\
    print_summary results w =
    (Ok tt,
     {| stdout :=
          (stdout w ++
           [(nl ++ "Classification Results:")%string;
            ("Total companies analyzed: " ++
               str_of_int (Z.of_nat (List.length results)))%string;
            ("Interesting companies: " ++
               str_of_int (Z.of_nat (List.length yes)))%string;
            ("Percentage interesting: " ++
               percentage_interesting (Z.of_nat (List.length yes))
                                      (Z.of_nat (List.length results)))%string;
            (nl ++ "Interesting Companies:")%string] ++ extra)%list;
        api_calls := api_calls w; api_key := api_key w; files := files w |}) /\
    List.length extra = (5 * List.length yes)%nat.
Proof.
  intros Hne Hrows.
  destruct (interesting_rows_spec results Hne) as [yes [Hyes [_ Hall]]].
  assert (Hyrows : Forall (fun r => exists c g b, r = result_row c g b) yes).
  { apply Forall_forall. intros r Hr.
    rewrite Forall_forall in Hall, Hrows. apply Hrows. apply (Hall r Hr). }
  exists yes.
  unfold print_summary, bind, lift, print. rewrite Hyes. cbv beta iota zeta.
  match goal with
  | |- exists extra, _ /\ print_companies yes ?w5 = _ /\ _ =>
      destruct (print_companies_result_rows yes Hyrows w5) as [extra [Hp Hlen]];
      exists extra; rewrite Hp
  end.
  cbn [printed stdout api_calls api_key files].
  split; [reflexivity|]. split; [|exact Hlen].
  rewrite <- !app_assoc. reflexivity.
Qed.
End Summary.

(** X6. Over a frame that has rows, all built by the loop, the summary
    raises nothing: it prints five header lines and then exactly five
    lines for each interesting row; the interesting rows are at most as
    many as the rows; no provider call is made and no file written. *)
Theorem print_summary_lines :
  forall results w,
    results <> [] ->
    Forall (fun r => exists c g b, r = result_row c g b) results ->
    exists yes w',
      interesting_rows results = Ok yes /\
      (List.length yes <= List.length results)%nat /\
      print_summary results w = (Ok tt, w') /\
      List.length (stdout w') =
        (List.length (stdout w) + 5 + 5 * List.length yes)%nat /\
      api_calls w' = api_calls w /\ files w' = files w.
Proof.
  intros results w Hne Hrows.
  destruct (print_summary_result_rows results w Hne Hrows)
    as [yes [extra [Hyes [Hp Hlen]]]].
  destruct (interesting_rows_spec results Hne) as [yes' [Hyes' [Hle _]]].
  assert (yes' = yes) by congruence. subst yes'.
  exists yes. eexists. split; [exact Hyes|]. split; [exact Hle|].
  split; [exact Hp|].
  cbn [stdout api_calls files]. repeat split.
  repeat rewrite length_app. cbn [List.length]. lia.
Qed.

Lemma print_summary_lines_witness :
  exists yes w',
    interesting_rows [result_row Sample.acme (Sample.verdict true 8 3) true] = Ok yes /\
    (List.length yes <= 1)%nat /\
    print_summary [result_row Sample.acme (Sample.verdict true 8 3) true] Sample.start
    = (Ok tt, w') /\
    List.length (stdout w') =
      (List.length (stdout Sample.start) + 5 + 5 * List.length yes)%nat /\
    api_calls w' = api_calls Sample.start /\ files w' = files Sample.start.
Proof.
  apply (print_summary_lines
           [result_row Sample.acme (Sample.verdict true 8 3) true] Sample.start).
  - discriminate.
  - constructor; [|constructor]. eauto.
Defined.

(** X7. Without the credential ([OPENAI_API_KEY] unset or empty) [main]
    raises ValueError and does nothing else; when the credential is there
    and [read_csv] raises, [main] raises that error.  In both cases no
    provider call was made, nothing was printed and no file written. *)
Theorem main_startup_failures :
  forall json_loads openai_parse getenv read_csv now_year w,
    (getenv "OPENAI_API_KEY" = None \/ getenv "OPENAI_API_KEY" = Some "" ->
     main json_loads openai_parse getenv read_csv now_year w =
     (Raise (ValueError "Please set OPENAI_API_KEY environment variable"), w)) /\
    (forall key e,
       getenv "OPENAI_API_KEY" = Some key -> key <> "" ->
       read_csv "data/data.csv" = Raise e ->
       main json_loads openai_parse getenv read_csv now_year w = (Raise e, w)).
Proof.
  intros jl op getenv read_csv now w. split.
  - intros [H|H]; unfold main; rewrite H; reflexivity.
  - intros key e Hkey Hne Hcsv. unfold main. rewrite Hkey.
    destruct key as [|a key]; [congruence|].
    unfold bind, CompanyClassifier_init, lift. rewrite Hcsv. reflexivity.
Qed.

Lemma main_startup_failures_witness :
  main Sample.loads Sample.fails (fun _ => Some "") (fun _ => Ok Sample.seven) 2025
       Sample.start =
  (Raise (ValueError "Please set OPENAI_API_KEY environment variable"), Sample.start) /\
  main Sample.loads Sample.fails (fun _ => Some "sk-test")
       (fun _ => Raise (OtherException "FileNotFoundError" "data/data.csv")) 2025
       Sample.start =
  (Raise (OtherException "FileNotFoundError" "data/data.csv"), Sample.start).
Proof.
  split.
  - apply (main_startup_failures Sample.loads Sample.fails (fun _ => Some "")
             (fun _ => Ok Sample.seven) 2025 Sample.start).
    right. reflexivity.
  - apply (main_startup_failures Sample.loads Sample.fails (fun _ => Some "sk-test")
             (fun _ => Raise (OtherException "FileNotFoundError" "data/data.csv"))
             2025 Sample.start) with (key := "sk-test").
    + reflexivity.
    + discriminate.
    + reflexivity.
Defined.

(** X8. On a data file without rows [main] writes the result file, empty,
    and then raises KeyError on the column 'Interesting': no summary is
    printed and no provider call made. *)
Theorem main_empty_frame :
  forall json_loads openai_parse getenv read_csv now_year w key,
    getenv "OPENAI_API_KEY" = Some key -> key <> "" ->
    read_csv "data/data.csv" = Ok [] ->
    main json_loads openai_parse getenv read_csv now_year w =
    (Raise (KeyError "Interesting"),
     {| stdout := stdout w;
        api_calls := api_calls w;
        api_key := Some key;
        files := (files w ++ [("classified_companies_detailed.csv", [])])%list |}).
Proof.
  intros jl op getenv read_csv now w key Hkey Hne Hcsv. unfold main. rewrite Hkey.
  destruct key as [|a key]; [congruence|].
  unfold bind, CompanyClassifier_init, lift. rewrite Hcsv. reflexivity.
Qed.

Lemma main_empty_frame_witness :
  main Sample.loads Sample.fails (fun _ => Some "sk-test") (fun _ => Ok []) 2025
       Sample.start =
  (Raise (KeyError "Interesting"),
   {| stdout := []; api_calls := 0; api_key := Some "sk-test";
      files := [("classified_companies_detailed.csv", [])] |}).
Proof.
  apply (main_empty_frame Sample.loads Sample.fails (fun _ => Some "sk-test")
           (fun _ => Ok []) 2025 Sample.start "sk-test").
  - reflexivity.
  - discriminate.
  - reflexivity.
Defined.

(** X9. Whenever [main] returns, the credential was set and not empty,
    the data file was read and had rows, one provider call was made per
    record, exactly one file was written,
    'classified_companies_detailed.csv', holding one row per record, the
    key was handed to the provider module, and the total printed is the
    number of records. *)
Theorem main_returned :
  forall json_loads openai_parse getenv read_csv now_year w w',
    main json_loads openai_parse getenv read_csv now_year w = (Ok tt, w') ->
    exists key frame rows,
      getenv "OPENAI_API_KEY" = Some key /\ key <> "" /\
      read_csv "data/data.csv" = Ok frame /\ frame <> [] /\
      files w' = (files w ++ [("classified_companies_detailed.csv", rows)])%list /\
      List.length rows = List.length frame /\
      api_calls w' = (api_calls w + List.length frame)%nat /\
      api_key w' = Some key /\
      In ("Total companies analyzed: " ++ str_of_int (Z.of_nat (List.length frame)))
         (stdout w').
Proof.
  intros jl op getenv read_csv now w w' H. unfold main in H.
  destruct (getenv "OPENAI_API_KEY") as [[|a key]|] eqn:Hkey;
    try discriminate H.
  unfold bind at 1 in H. unfold CompanyClassifier_init, bind at 1, lift at 1 in H.
  destruct (read_csv "data/data.csv") as [frame|e] eqn:Hcsv; [|discriminate H].
  cbv beta iota in H.
  set (w0 := {| stdout := stdout w; api_calls := api_calls w;
                api_key := Some (String a key); files := files w |}) in H.
  set (self := {| df := frame; current_year := now |}) in H.
  unfold bind at 1 in H. unfold classify_companies in H.
  change (df self) with frame in H.
  destruct (classify_loop jl op self frame [] w0) as [[rows|e] w1] eqn:Hloop;
    [|discriminate H].
  destruct (classify_loop_returned jl op self frame [] w0 rows w1 Hloop)
    as [rs [Hrs [Hlen [Hcalls [Hfiles [Hk _]]]]]].
  cbn [app] in Hrs. subst rs.
  pose proof (classify_loop_result_rows jl op self frame [] w0 _ _ Hloop
                (Forall_nil _)) as Hrows.
  unfold bind at 1 in H. unfold to_csv at 1 in H. cbv beta iota in H.
  assert (Hrne : rows <> []).
  { intros ->. unfold print_summary, bind, lift in H. cbn [interesting_rows] in H.
    discriminate H. }
  match type of H with
  | print_summary rows ?w2 = _ =>
      destruct (print_summary_result_rows rows w2 Hrne Hrows)
        as [yes [extra [_ [Hp _]]]]
  end.
  rewrite Hp in H. injection H as <-.
  exists (String a key), frame, rows.
  cbn [stdout api_calls api_key files].
  split; [reflexivity|]. split; [discriminate|]. split; [reflexivity|].
  split; [intros ->; destruct rows; [congruence | discriminate Hlen]|].
  split; [rewrite Hfiles; reflexivity|]. split; [exact Hlen|].
  split; [exact Hcalls|]. split; [rewrite Hk; reflexivity|].
  rewrite <- Hlen. apply in_or_app. right. cbn [app In].
  right. left. reflexivity.
Qed.

Lemma main_returned_witness :
  exists w',
    main Sample.loads Sample.first_three (fun _ => Some "sk-test")
         (fun _ => Ok Sample.seven) 2025 Sample.start = (Ok tt, w') /\
    exists key frame rows,
      Some "sk-test" = Some key /\ key <> "" /\
      Ok Sample.seven = Ok frame /\ frame <> [] /\
      files w' =
        (files Sample.start ++ [("classified_companies_detailed.csv", rows)])%list /\
      List.length rows = List.length frame /\
      api_calls w' = (api_calls Sample.start + List.length frame)%nat /\
      api_key w' = Some key /\
      In ("Total companies analyzed: " ++ str_of_int (Z.of_nat (List.length frame)))
         (stdout w').
Proof.
  eexists. split; [vm_compute; reflexivity|].
  apply (main_returned Sample.loads Sample.first_three (fun _ => Some "sk-test")
           (fun _ => Ok Sample.seven) 2025 Sample.start).
  reflexivity.
Defined.

(** ** The percentage at its two ends *)

Module B64Exact.
Import B64 B64Facts B64Division.

Lemma iter_xO_pow p n : Zpos (Pos.iter xO p n) = Zpos p * 2 ^ Zpos n.
Proof.
  induction n as [|n IH] using Pos.peano_ind.
  - simpl. lia.
  - rewrite Pos.iter_succ, Pos2Z.inj_xO, IH, Pos2Z.inj_succ, Z.pow_succ_r by lia.
    lia.
Qed.

(** An int below [2^53] converts to a double without rounding. *)
Lemma of_Z_finite n :
  0 < n < 2 ^ 53 ->
  exists m e, of_Z n = S754_finite false m e /\ 2 ^ 52 <= Zpos m < 2 ^ 53.
Proof.
  intros Hn. destruct n as [|p|p]; try lia.
  pose proof (Zdigits2_bounds (Zpos p) ltac:(lia)) as Hd.
  cbn [Zdigits2] in Hd. set (d := Zpos (digits2_pos p)) in *.
  assert (D : 1 <= d <= 53).
  { split; [subst d; lia|].
    destruct (Z.le_gt_cases d 53) as [|Hgt]; [assumption|].
    pose proof (Z.pow_le_mono_r 2 53 (d - 1) ltac:(lia) ltac:(lia)). lia. }
  unfold of_Z, binary_normalize, binary_round.
  fold d. clearbody d. unfold fexp, emin, prec, emax.
  replace (Z.max (d + 0 - 53) (3 - 1024 - 53)) with (d - 53) by lia.
  unfold shl_align. replace (d - 53 - 0) with (d - 53) by lia.
  destruct (d - 53) as [|k|k] eqn:Ek; try lia.
  - (* exactly 53 bits *)
    assert (d = 53) by lia. subst d. change (53 - 1) with 52 in Hd.
    pose proof (round_53 (Zpos p) 0 loc_Exact) as Hr.
    unfold prec, emax in Hr. rewrite Hr by lia.
    cbn [round_nearest_even]. cbv zeta.
    replace (Zpos p <? 2 ^ 53) with true by (symmetry; apply Z.ltb_lt; lia).
    exists p, 0. split; [reflexivity | exact Hd].
  - (* fewer bits: the mantissa is shifted left *)
    assert (Hk : Zpos k = 53 - d) by lia.
    assert (Hm : 2 ^ 52 <= Zpos (Pos.iter xO p k) < 2 ^ 53).
    { rewrite iter_xO_pow, Hk.
      assert (P52 : 2 ^ (d - 1) * 2 ^ (53 - d) = 2 ^ 52).
      { rewrite <- Z.pow_add_r by lia. f_equal. lia. }
      assert (P53 : 2 ^ d * 2 ^ (53 - d) = 2 ^ 53).
      { rewrite <- Z.pow_add_r by lia. f_equal. lia. }
      assert (0 < 2 ^ (53 - d)) by (apply Z.pow_pos_nonneg; lia).
      split.
      - rewrite <- P52. apply Z.mul_le_mono_nonneg_r; lia.
      - rewrite <- P53. apply Z.mul_lt_mono_pos_r; lia. }
    pose proof (round_53 (Zpos (Pos.iter xO p k)) (Zneg k) loc_Exact) as Hr.
    unfold prec, emax in Hr. rewrite Hr by lia.
    cbn [round_nearest_even]. cbv zeta.
    replace (Zpos (Pos.iter xO p k) <? 2 ^ 53) with true
      by (symmetry; apply Z.ltb_lt; lia).
    exists (Pos.iter xO p k), (Zneg k). split; [reflexivity | exact Hm].
Qed.

(** A double of 53 bits divided by itself is one. *)
Lemma div_self m e :
  2 ^ 52 <= Zpos m < 2 ^ 53 ->
  div (S754_finite false m e) (S754_finite false m e) =
  S754_finite false 4503599627370496 (-52).
Proof.
  intros Hm. unfold div, SFdiv. cbn [xorb].
  assert (Hd : Zdigits2 (Zpos m) = 53) by (apply Zdigits2_unique; lia).
  unfold SFdiv_core_binary. rewrite Hd.
  unfold fexp, emin, prec, emax.
  replace (Z.min (Z.max (53 + e - (53 + e) - 53) (3 - 1024 - 53)) (e - e))
    with (-53) by lia.
  replace (e - e - -53) with 53 by lia.
  rewrite Z.shiftl_mul_pow2 by lia.
  assert (Hq : Z.div_eucl (Zpos m * 2 ^ 53) (Zpos m) = (2 ^ 53, 0)).
  { pose proof (Z.div_eucl_eq (Zpos m * 2 ^ 53) (Zpos m) ltac:(lia)) as Heq.
    pose proof (Z.mod_pos_bound (Zpos m * 2 ^ 53) (Zpos m) ltac:(lia)) as Hb.
    unfold Z.modulo in Hb.
    destruct (Z.div_eucl (Zpos m * 2 ^ 53) (Zpos m)) as [q r].
    assert (r = 0).
    { assert (Hr : r = Zpos m * (2 ^ 53 - q)) by lia.
      destruct (Z.lt_trichotomy q (2 ^ 53)) as [Hlt|[Heq'|Hgt]].
      - assert (Zpos m * 1 <= Zpos m * (2 ^ 53 - q))
          by (apply Z.mul_le_mono_nonneg_l; lia). lia.
      - subst q. lia.
      - assert (Zpos m * (2 ^ 53 - q) <= Zpos m * (-1))
          by (apply Z.mul_le_mono_nonneg_l; lia). lia. }
    subst r. f_equal.
    assert (Zpos m * q = Zpos m * 2 ^ 53) by lia.
    apply (Z.mul_reg_l _ _ (Zpos m)); lia. }
  rewrite Hq.
  rewrite (new_location_spec (Zpos m) 0) by lia.
  change (0 =? 0) with true. cbv iota.
  pose proof (round_54 (2 ^ 53) (-53) loc_Exact) as Hr.
  unfold prec, emax in Hr. rewrite Hr by lia.
  reflexivity.
Qed.
End B64Exact.

(** X10. For every number of rows below [2^53] the percentage is exact at
    its two ends: no interesting row prints "0.0%" and all rows
    interesting prints "100.0%". *)
Theorem percentage_at_the_ends :
  forall total,
    0 < total < 2 ^ 53 ->
    percentage_interesting 0 total = "0.0%" /\
    percentage_interesting total total = "100.0%".
Proof.
  intros total H.
  destruct (B64Exact.of_Z_finite total H) as [m [e [Hf Hm]]].
  unfold percentage_interesting. rewrite Hf. split.
  - reflexivity.
  - rewrite (B64Exact.div_self m e Hm). vm_compute. reflexivity.
Qed.

Lemma percentage_at_the_ends_witness :
  percentage_interesting 0 7 = "0.0%" /\ percentage_interesting 7 7 = "100.0%".
Proof.
  apply (percentage_at_the_ends 7). split; reflexivity.
Defined.

(** ** The failure log of the batch *)

Section FailureLog.
Variable json_loads : string -> result pyval.
Variable openai_parse : nat -> string -> result CompanyAnalysis.

Lemma classify_loop_log self rows :
  forall acc w,
  exists extra,
    stdout (snd (classify_loop json_loads openai_parse self rows acc w)) =
      (stdout w ++ extra)%list /\
    (List.length extra <= List.length rows)%nat /\
    Forall (fun line =>
              exists company n content e,
                In company rows /\ openai_parse n content = Raise e /\
                line = "GPT analysis failed for " ++ company_name company ++ ": " ++
                       exn_str e)
           extra.
Proof.
  induction rows as [|c rows IH]; intros acc w.
  - exists []. cbn [classify_loop ret snd]. rewrite app_nil_r.
    repeat split; [reflexivity | constructor].
  - cbn [classify_loop]. unfold bind.
    pose proof (classify_company_cases json_loads openai_parse self c w) as Hc.
    destruct (openai_parse _ _) as [v|e] eqn:E.
    + destruct Hc as [b Hc]. rewrite Hc.
      destruct (IH (acc ++ [result_row c v b])%list (called w))
        as [extra [Hout [Hlen Hall]]].
      exists extra. split; [exact Hout|]. split; [simpl; lia|].
      eapply Forall_impl; [|exact Hall].
      intros line [c' [n [content [e [Hin H]]]]].
      exists c', n, content, e. split; [right; exact Hin | exact H].
    + destruct (is_Exception e) eqn:He.
      * destruct Hc as [b Hc]. rewrite Hc.
        match goal with
        | |- context [classify_loop _ _ _ rows ?acc' ?w1] =>
            destruct (IH acc' w1) as [extra [Hout [Hlen Hall]]]
        end.
        exists (("GPT analysis failed for " ++ company_name c ++ ": " ++ exn_str e)
                  :: extra).
        split; [rewrite Hout; cbn [printed stdout called];
                rewrite <- app_assoc; reflexivity|].
        split; [simpl; lia|].
        constructor.
        -- exists c. do 3 eexists. split; [left; reflexivity|].
           split; [exact E | reflexivity].
        -- eapply Forall_impl; [|exact Hall].
           intros line [c' [n [content [e' [Hin H]]]]].
           exists c', n, content, e'. split; [right; exact Hin | exact H].
      * rewrite Hc. exists []. cbn [snd called stdout]. rewrite app_nil_r.
        repeat split; [simpl; lia | constructor].
Qed.
End FailureLog.

(** X11. All that [classify_companies] prints is its failure log: at most
    one line per record, each of the form
    "GPT analysis failed for <company name>: <error>" for a record of the
    frame and an error the provider raised; when no provider call fails,
    nothing is printed. *)
Theorem classify_companies_prints_failures_only :
  forall json_loads openai_parse self w,
  exists extra,
    stdout (snd (classify_companies json_loads openai_parse self w)) =
      (stdout w ++ extra)%list /\
    (List.length extra <= List.length (df self))%nat /\
    Forall (fun line =>
              exists company n content e,
                In company (df self) /\ openai_parse n content = Raise e /\
                line = "GPT analysis failed for " ++ company_name company ++ ": " ++
                       exn_str e)
           extra /\
    ((forall n content e, openai_parse n content <> Raise e) -> extra = []).
Proof.
  intros jl op self w.
  destruct (classify_loop_log jl op self (df self) [] w) as [extra [Hout [Hlen Hall]]].
  exists extra. unfold classify_companies.
  split; [exact Hout|]. split; [exact Hlen|]. split; [exact Hall|].
  intros Hok. destruct extra as [|line extra]; [reflexivity|].
  apply Forall_inv in Hall. destruct Hall as [c [n [content [e [_ [Hr _]]]]]].
  elim (Hok n content e Hr).
Qed.

Lemma classify_companies_prints_failures_only_witness :
  stdout (snd (classify_companies Sample.loads
                 (Sample.answers (Sample.verdict true 8 3))
                 Sample.classifier Sample.start)) = stdout Sample.start.
Proof.
  destruct (classify_companies_prints_failures_only
              Sample.loads (Sample.answers (Sample.verdict true 8 3))
              Sample.classifier Sample.start) as [extra [Hout [_ [_ Hnil]]]].
  rewrite Hout, Hnil.
  - apply app_nil_r.
  - intros n content e H. discriminate H.
Defined.

(** ** What a row marked "Yes" certifies *)

Lemma classify_company_inv_full json_loads openai_parse self company w r w' :
  classify_company json_loads openai_parse self company w = (Ok r, w') ->
  exists gpt basic,
    basic_criteria_met json_loads self company = Ok basic /\
    r = result_row company gpt (basic && advanced_criteria_met gpt).
Proof.
  unfold classify_company, bind, lift, ret. intros H.
  destruct (get_gpt_analysis openai_parse _ _ _ w) as [[gpt|e] w1]; [|discriminate].
  destruct (basic_criteria_met json_loads self company) as [b|e]; [|discriminate].
  injection H as <- _. eauto.
Qed.

(** X12. Every row the engine marks "Yes" carries values that meet the
    thresholds: Total Employees between 20 and 60, a Founded Year at most
    five years before the current year, a Headquarters text containing
    "USA" or "Canada", Growth Potential at least 7 and Risk Level at most 6. *)
Theorem yes_row_meets_thresholds :
  forall json_loads openai_parse self company w r w',
    classify_company json_loads openai_parse self company w = (Ok r, w') ->
    dict_lookup r "Interesting" = Some (CStr "Yes") ->
    exists employees founded hq growth risk,
      dict_lookup r "Total Employees" = Some (CInt employees) /\
      20 <= employees <= 60 /\
      dict_lookup r "Founded Year" = Some (CInt founded) /\
      current_year self - 5 <= founded /\
      dict_lookup r "Headquarters" = Some (CStr hq) /\
      ((exists pre post, hq = pre ++ "USA" ++ post) \/
       (exists pre post, hq = pre ++ "Canada" ++ post)) /\
      dict_lookup r "Growth Potential" = Some (CInt growth) /\ 7 <= growth /\
      dict_lookup r "Risk Level" = Some (CInt risk) /\ risk <= 6.
Proof.
  intros jl op self c w r w' H Hyes.
  destruct (classify_company_inv_full jl op self c w r w' H) as [gpt [basic [Hb ->]]].
  rewrite interesting_column in Hyes.
  destruct (basic && advanced_criteria_met gpt) eqn:Hi; [|discriminate Hyes].
  apply andb_true_iff in Hi. destruct Hi as [-> Hadv].
  destruct (is_mostly_north_american_total jl (employee_locations c)) as [mostly Hm].
  destruct (has_stable_growth_total (growth_2y c) (growth_1y c) (growth_6m c))
    as [stable Hs].
  rewrite (basic_criteria_met_eq jl self c mostly stable Hm Hs) in Hb.
  injection Hb as Hb.
  repeat (apply andb_true_iff in Hb; destruct Hb as [Hb ?]).
  unfold advanced_criteria_met in Hadv.
  repeat (apply andb_true_iff in Hadv; destruct Hadv as [Hadv ?]).
  exists (total_employees c), (founded_year c), (headquarters c),
    (growth_potential gpt), (risk_level gpt).
  unfold has_valid_employee_count in *. unfold is_founded_recently in Hb.
  repeat match goal with
         | Hx : (_ && _)%bool = true |- _ =>
             apply andb_true_iff in Hx; destruct Hx
         | Hx : (_ <=? _) = true |- _ => apply Z.leb_le in Hx
         end.
  split; [reflexivity|]. split; [lia|].
  split; [reflexivity|]. split; [lia|].
  split; [reflexivity|]. split; [apply is_north_american_spec; assumption|].
  split; [reflexivity|]. split; [lia|].
  split; [reflexivity | lia].
Qed.

Lemma yes_row_meets_thresholds_witness :
  exists employees founded hq growth risk,
    dict_lookup (result_row Sample.acme (Sample.verdict true 8 3) true)
                "Total Employees" = Some (CInt employees) /\
    20 <= employees <= 60 /\
    dict_lookup (result_row Sample.acme (Sample.verdict true 8 3) true)
                "Founded Year" = Some (CInt founded) /\
    current_year Sample.classifier - 5 <= founded /\
    dict_lookup (result_row Sample.acme (Sample.verdict true 8 3) true)
                "Headquarters" = Some (CStr hq) /\
    ((exists pre post, hq = pre ++ "USA" ++ post) \/
     (exists pre post, hq = pre ++ "Canada" ++ post)) /\
    dict_lookup (result_row Sample.acme (Sample.verdict true 8 3) true)
                "Growth Potential" = Some (CInt growth) /\ 7 <= growth /\
    dict_lookup (result_row Sample.acme (Sample.verdict true 8 3) true)
                "Risk Level" = Some (CInt risk) /\ risk <= 6.
Proof.
  apply (yes_row_meets_thresholds
           Sample.loads (Sample.answers (Sample.verdict true 8 3))
           Sample.classifier Sample.acme Sample.start
           (result_row Sample.acme (Sample.verdict true 8 3) true)
           (called Sample.start)).
  - reflexivity.
  - reflexivity.
Defined.
